(** * Brainstorm idea board: the idea generator and the session handlers

    A shallow embedding of [app.py]: the Python string operations the
    response parser relies on, [reset_session_state], [generate_ideas] and
    the button handlers of the page script, followed by the properties of
    the design document that concern them. *)

From Stdlib Require Import ZArith NArith Ascii String.
From stdpp Require Import base gmap sets list strings.

Local Open Scope N_scope.

(** ** Python strings

    A Python [str] is a sequence of Unicode code points. *)

Definition char := N.
Definition str := list char.

(** String literals of the source are written as Rocq strings, whose bytes
    are the UTF-8 encoding of the text; [py] decodes them to code points. *)
Fixpoint utf8_decode (pending : nat) (acc : N) (bytes : list N) : str :=
  match bytes with
  | [] => []
  | b :: rest =>
      match pending with
      | O =>
          if b <? 0x80 then b :: utf8_decode 0 0 rest
          else if b <? 0xE0 then utf8_decode 1 (b - 0xC0) rest
          else if b <? 0xF0 then utf8_decode 2 (b - 0xE0) rest
          else utf8_decode 3 (b - 0xF0) rest
      | S O => (acc * 64 + (b - 0x80)) :: utf8_decode 0 0 rest
      | S p => utf8_decode p (acc * 64 + (b - 0x80)) rest
      end
  end.

Definition py (s : string) : str :=
  utf8_decode 0 0 (N_of_ascii <$> list_ascii_of_string s).

Definition nl : str := [0x0A].
Definition dquote : str := [0x22].

(** Truth value of a string or a list: non-empty. *)
Definition truthy {A} (l : list A) : bool :=
  match l with [] => false | _ :: _ => true end.

(** [c.isspace()]: the white space of CPython's Unicode database. *)
Definition isspace (c : char) : bool :=
  ((0x09 <=? c) && (c <=? 0x0D)) || ((0x1C <=? c) && (c <=? 0x20))
  || (c =? 0x85) || (c =? 0xA0) || (c =? 0x1680)
  || ((0x2000 <=? c) && (c <=? 0x200A))
  || (c =? 0x2028) || (c =? 0x2029) || (c =? 0x202F) || (c =? 0x205F)
  || (c =? 0x3000).

(** [s.strip()] with no argument removes leading and trailing white space. *)
Fixpoint lstrip (s : str) : str :=
  match s with
  | [] => []
  | c :: s' => if isspace c then lstrip s' else s
  end.

Definition rstrip (s : str) : str := reverse (lstrip (reverse s)).

Definition strip (s : str) : str := rstrip (lstrip s).

(** [s.startswith(sub)]. *)
Fixpoint startswith (sub s : str) : bool :=
  match sub, s with
  | [], _ => true
  | _ :: _, [] => false
  | a :: sub', b :: s' => (a =? b) && startswith sub' s'
  end.

(** [s.find(sub)]: index of the first occurrence, [None] for Python's -1. *)
Fixpoint find (sub s : str) : option nat :=
  if startswith sub s then Some O
  else match s with
       | [] => None
       | _ :: s' => S <$> find sub s'
       end.

(** [sub in s]. *)
Definition contains (sub s : str) : bool :=
  match find sub s with Some _ => true | None => false end.

(** [s.split(sep, maxsplit)] for a non-empty separator: at most [maxsplit]
    cuts, leftmost first. *)
Fixpoint split_max (sep : str) (maxsplit : nat) (s : str) : list str :=
  match maxsplit with
  | O => [s]
  | S m =>
      match find sep s with
      | None => [s]
      | Some i => take i s :: split_max sep m (drop (i + length sep) s)
      end
  end.

(** [s.split(sep)]: no limit on the cuts; every cut consumes a character,
    so [length s] of them are never exceeded. *)
Definition split (sep s : str) : list str := split_max sep (length s) s.

(** [sep.join(parts)]. *)
Fixpoint join (sep : str) (parts : list str) : str :=
  match parts with
  | [] => []
  | [p] => p
  | p :: rest => p ++ sep ++ join sep rest
  end.

(** What the interpreter supplies and the program does not fix: the digits
    of the Unicode database beyond ASCII, and the order in which a set is
    iterated. *)
Class Runtime := {
  unicode_isdigit : char → bool;
  set_iter : gset str → list str
}.

(** [c.isdigit()]. *)
Definition isdigit `{Runtime} (c : char) : bool :=
  if c <? 0x80 then (0x30 <=? c) && (c <=? 0x39) else unicode_isdigit c.

Definition ascii_runtime : Runtime :=
  {| unicode_isdigit := λ _, false; set_iter := elements |}.

(** ** Session state, effects and the script monad

    [st.session_state] is a dictionary from key names to Python values. *)

Inductive value :=
  | VStr (s : str)
  | VList (l : list str)
  | VSet (X : gset str)
  | VInt (n : Z).

Abbreviation session_state := (gmap string value).

(** Truth value of a Python object in an [if]. *)
Definition truth (v : value) : bool :=
  match v with
  | VStr s => truthy s
  | VList l => truthy l
  | VSet X => bool_decide (X ≠ ∅)
  | VInt n => negb (n =? 0)%Z
  end.

(** What a run shows or sends: notification banners and the prompts sent to
    the generation service. *)
Inductive effect :=
  | Warning (msg : str)
  | Error (msg : str)
  | Request (prompt : str).

(** How a piece of the script ends: with a value, with an exception (kept
    as its [str(e)]), or with [st.rerun()], which no [except Exception]
    catches. *)
Inductive outcome (A : Type) :=
  | Returned (a : A)
  | Raised (e : str)
  | Rerun.
Arguments Returned {A} a.
Arguments Raised {A} e.
Arguments Rerun {A}.

(** The generation service, as seen through [response.text]. *)
Inductive response :=
  | Text (t : str)
  | Failure (e : str).

Definition M (A : Type) : Type :=
  session_state → list effect * session_state * outcome A.

Definition effects_of {A} (r : list effect * session_state * outcome A) := r.1.1.
Definition store_of {A} (r : list effect * session_state * outcome A) := r.1.2.
Definition outcome_of {A} (r : list effect * session_state * outcome A) := r.2.

#[global] Instance M_ret : MRet M := λ A a σ, ([], σ, Returned a).

#[global] Instance M_bind : MBind M := λ A B f m σ,
  match m σ with
  | (t, σ1, Returned a) =>
      match f a σ1 with (t', σ2, o) => (t ++ t', σ2, o) end
  | (t, σ1, Raised e) => (t, σ1, Raised e)
  | (t, σ1, Rerun) => (t, σ1, Rerun)
  end.

Definition raise {A} (e : str) : M A := λ σ, ([], σ, Raised e).
Definition st_rerun : M unit := λ σ, ([], σ, Rerun).
Definition emit (ev : effect) : M unit := λ σ, ([ev], σ, Returned tt).
Definition st_warning (msg : str) : M unit := emit (Warning msg).
Definition st_error (msg : str) : M unit := emit (Error msg).

(** [try: body except Exception as e: handler(e)]. *)
Definition try_except {A} (body : M A) (handler : str → M A) : M A := λ σ,
  match body σ with
  | (t, σ1, Raised e) =>
      match handler e σ1 with (t', σ2, o) => (t ++ t', σ2, o) end
  | r => r
  end.

Definition pass : M unit := mret tt.

Fixpoint for_each {A} (l : list A) (body : A → M unit) : M unit :=
  match l with
  | [] => pass
  | x :: l' => body x ;; for_each l' body
  end.

Fixpoint map_m {A B} (f : A → M B) (l : list A) : M (list B) :=
  match l with
  | [] => mret []
  | x :: l' => y ← f x; ys ← map_m f l'; mret (y :: ys)
  end.

(** [l[i]]. *)
Definition index {A} (l : list A) (i : nat) : M A :=
  match l !! i with
  | Some x => mret x
  | None => raise (py "list index out of range")
  end.

(** [key in st.session_state], [st.session_state.key],
    [st.session_state.key = v] and [del st.session_state[key]]. *)
Definition has_key (key : string) : M bool := λ σ,
  ([], σ, Returned (bool_decide (is_Some (σ !! key)))).

Definition getattr (key : string) : M value := λ σ,
  match σ !! key with
  | Some v => ([], σ, Returned v)
  | None => ([], σ, Raised (py "st.session_state has no attribute " ++ py key))
  end.

Definition setattr (key : string) (v : value) : M unit := λ σ,
  ([], <[key:=v]> σ, Returned tt).

Definition delitem (key : string) : M unit := λ σ,
  match σ !! key with
  | Some _ => ([], delete key σ, Returned tt)
  | None => ([], σ, Raised (py key))
  end.

(** Reading a field at the type the operation applied to it needs. *)
Definition type_error {A} : M A := raise (py "unsupported operand type").

Definition get_str (key : string) : M str :=
  v ← getattr key; match v with VStr s => mret s | _ => type_error end.
Definition get_list (key : string) : M (list str) :=
  v ← getattr key; match v with VList l => mret l | _ => type_error end.
Definition get_set (key : string) : M (gset str) :=
  v ← getattr key; match v with VSet X => mret X | _ => type_error end.
Definition get_int (key : string) : M Z :=
  v ← getattr key; match v with VInt n => mret n | _ => type_error end.

(** The five fields of a session, as a typed snapshot of the store. *)
Record Session := {
  topic : str;
  ideas : list str;
  liked_ideas : gset str;
  removed_ideas : gset str;
  current_round : Z
}.

Definition snapshot (σ : session_state) : option Session :=
  match σ !! "topic", σ !! "ideas", σ !! "liked_ideas",
        σ !! "removed_ideas", σ !! "current_round" with
  | Some (VStr t), Some (VList i), Some (VSet l), Some (VSet r), Some (VInt n) =>
      Some {| topic := t; ideas := i; liked_ideas := l; removed_ideas := r;
              current_round := n |}
  | _, _, _, _, _ => None
  end.

(** The round counter of a store. *)
Definition round_of (σ : session_state) : option Z :=
  current_round <$> snapshot σ.

(** The list a call returned; a call that did not return gives none. *)
Definition returned (r : list effect * session_state * outcome (list str))
    : list str :=
  match outcome_of r with Returned l => l | _ => [] end.

(** ** [reset_session_state] *)

Definition session_keys : list string :=
  ["topic"; "ideas"; "liked_ideas"; "removed_ideas"; "current_round"].

Definition reset_session_state : M unit :=
  for_each session_keys (λ key : string,
    (present ← has_key key;
     if present : bool then delitem key else pass) : M unit) ;;
  setattr "topic" (VStr []) ;;
  setattr "ideas" (VList []) ;;
  setattr "liked_ideas" (VSet ∅) ;;
  setattr "removed_ideas" (VSet ∅) ;;
  setattr "current_round" (VInt 1).

(** The store without the five session keys. *)
Definition cleared (σ : session_state) : session_state :=
  foldl (λ m key, delete key m) σ session_keys.

(** The defaults given to missing keys at the top of every run. *)
Definition init_session_state : M unit :=
  (b ← has_key "topic"; if negb b then setattr "topic" (VStr []) else pass) ;;
  (b ← has_key "ideas"; if negb b then setattr "ideas" (VList []) else pass) ;;
  (b ← has_key "liked_ideas";
   if negb b then setattr "liked_ideas" (VSet ∅) else pass) ;;
  (b ← has_key "removed_ideas";
   if negb b then setattr "removed_ideas" (VSet ∅) else pass) ;;
  (b ← has_key "current_round";
   if negb b then setattr "current_round" (VInt 1) else pass).

(** ** [generate_ideas] *)

Section Program.
Context `{Runtime}.

(** [', '.join(xs) if xs else '없음']. *)
Definition feedback_list (xs : gset str) : str :=
  if truth (VSet xs) then join (py ", ") (set_iter xs) else py "없음".

Definition feedback_context (liked_ideas removed_ideas : gset str)
    (round_num : Z) : str :=
  if (1 <? round_num)%Z then
    join nl [
      [];
      py "        이전 라운드에서 사용자가 좋아한 아이디어 유형:";
      py "        " ++ feedback_list liked_ideas;
      py "        ";
      py "        이전 라운드에서 사용자가 제거한 아이디어 유형:";
      py "        " ++ feedback_list removed_ideas;
      py "        ";
      py "        위의 피드백을 참고하여, 좋아한 아이디어와 유사한 새로운 접근 방식을 제시하고,";
      py "        제거된 아이디어와 유사한 접근 방식은 피해주세요.";
      py "        " ]
  else [].

Definition prompt (topic : str) (liked_ideas removed_ideas : gset str)
    (round_num : Z) : str :=
  join nl [
    [];
    py "    다음 주제에 대해 5개의 창의적이고 실용적인 아이디어를 생성해주세요:";
    py "    주제: " ++ topic;
    py "    ";
    py "    " ++ feedback_context liked_ideas removed_ideas round_num;
    py "    ";
    py "    요구사항:";
    py "    - 각 아이디어는 1~2문장으로 간결하게 작성";
    py "    - 중복되는 아이디어는 제외";
    py "    - 각 아이디어는 번호와 함께 작성 (예: " ++ dquote
      ++ py "1. 아이디어 내용" ++ dquote ++ py ")";
    py "    - 창의적이고 실현 가능한 아이디어를 제시";
    py "    - 이전에 제시된 아이디어와 유사한 접근 방식은 피해주세요";
    py "    " ].

(** [model.generate_content(prompt)] followed by [response.text]: the
    request is sent, and the service answers with a text or fails. *)
Definition generate_content (model : str → response) (p : str) : M str :=
  emit (Request p) ;;
  match model p with
  | Text t => mret t
  | Failure e => raise e
  end.

(** [line.strip() for line in text.split('\n') if line.strip()]. *)
Definition stripped_lines (text : str) : list str :=
  strip <$> List.filter (λ line, truthy (strip line)) (split nl text).

(** [any(c.isdigit() for c in idea[:2])]. *)
Definition numbered (idea : str) : bool := existsb isdigit (take 2 idea).

(** [idea.split('. ', 1)[1] if '. ' in idea else idea]. *)
Definition strip_number (idea : str) : M str :=
  if contains (py ". ") idea then index (split_max (py ". ") 1 idea) 1
  else mret idea.

Definition generate_ideas (model : str → response) (topic : str)
    (liked_ideas removed_ideas : gset str) (round_num : Z) : M (list str) :=
  if negb (truthy (strip topic)) then
    st_warning (py "⚠️ 주제를 입력해주세요.") ;;
    mret []
  else
    let p := prompt topic liked_ideas removed_ideas round_num in
    try_except
      (text ← generate_content model p;
       if negb (truthy text) then
         st_error (py "⚠️ 아이디어 생성에 실패했습니다. 다시 시도해주세요.") ;;
         mret []
       else
         let ideas := stripped_lines text in
         ideas ← map_m strip_number (List.filter numbered ideas);
         if negb (truthy ideas) then
           st_error (py "⚠️ 생성된 아이디어를 파싱할 수 없습니다. 다시 시도해주세요.") ;;
           mret []
         else mret (take 5 ideas))
      (λ e,
         st_error (py "⚠️ 아이디어 생성 중 오류가 발생했습니다: " ++ e) ;;
         mret []).

(** ** The page script

    One run of the script, given the text typed into the topic field and
    the button pressed (if any); a run ends at its first [st.rerun()]. *)

Inductive button :=
  | ResetButton
  | GenerateButton
  | LikeButton (i : nat)
  | RemoveButton (i : nat)
  | RegenerateButton
  | RemoveLikedButton (idea : str).

#[local] Instance button_eq_dec : EqDecision button.
Proof. solve_decision. Defined.

(** [st.button(...)]: true in the run that the press of it triggers. *)
Definition st_button (pressed : option button) (b : button) : bool :=
  bool_decide (pressed = Some b).

(** Body of [if generate_clicked and topic:]. *)
Definition on_generate (model : str → response) (typed : str) : M unit :=
  setattr "topic" (VStr typed) ;;
  liked ← get_set "liked_ideas";
  removed ← get_set "removed_ideas";
  round ← get_int "current_round";
  new_ideas ← generate_ideas model typed liked removed round;
  setattr "ideas" (VList new_ideas) ;;
  shown ← getattr "ideas";
  (if truth shown then
     round ← get_int "current_round";
     setattr "current_round" (VInt (round + 1))
   else pass) ;;
  st_rerun.

(** Bodies of the like and remove buttons of a displayed idea. *)
Definition on_like (idea : str) : M unit :=
  liked ← get_set "liked_ideas";
  setattr "liked_ideas" (VSet ({[idea]} ∪ liked)) ;;
  st_rerun.

Definition on_remove (idea : str) : M unit :=
  removed ← get_set "removed_ideas";
  setattr "removed_ideas" (VSet ({[idea]} ∪ removed)) ;;
  st_rerun.

(** Body of the regenerate button. *)
Definition on_regenerate (model : str → response) : M unit :=
  topic ← get_str "topic";
  liked ← get_set "liked_ideas";
  removed ← get_set "removed_ideas";
  round ← get_int "current_round";
  new_ideas ← generate_ideas model topic liked removed round;
  (if truthy new_ideas then
     setattr "ideas" (VList new_ideas) ;;
     round ← get_int "current_round";
     setattr "current_round" (VInt (round + 1))
   else pass) ;;
  st_rerun.

(** Body of the remove button of the liked list: [set.remove] raises
    [KeyError] on a missing element. *)
Definition on_remove_liked (idea : str) : M unit :=
  liked ← get_set "liked_ideas";
  (if bool_decide (idea ∈ liked)
   then setattr "liked_ideas" (VSet (liked ∖ {[idea]}))
   else raise idea) ;;
  st_rerun.

(** [enumerate(l, start)]. *)
Fixpoint enumerate {A} (start : nat) (l : list A) : list (nat * A) :=
  match l with
  | [] => []
  | x :: l' => (start, x) :: enumerate (S start) l'
  end.

Definition script (model : str → response) (typed : str)
    (pressed : option button) : M unit :=
  init_session_state ;;
  (if st_button pressed ResetButton
   then reset_session_state ;; st_rerun else pass) ;;
  current ← getattr "topic";
  let '(topic, generate_clicked) :=
    if negb (truth current)
    then (typed, st_button pressed GenerateButton)
    else ([], false) in
  (if generate_clicked && truthy topic
   then on_generate model topic else pass) ;;
  shown ← getattr "ideas";
  if truth shown then
    ideas ← get_list "ideas";
    for_each (enumerate 1 ideas) (λ '(i, idea),
      (if st_button pressed (LikeButton i) then on_like idea else pass) ;;
      (if st_button pressed (RemoveButton i) then on_remove idea else pass)) ;;
    (if st_button pressed RegenerateButton
     then on_regenerate model else pass) ;;
    liked ← getattr "liked_ideas";
    if truth liked then
      liked ← get_set "liked_ideas";
      for_each (set_iter liked) (λ idea,
        if st_button pressed (RemoveLikedButton idea)
        then on_remove_liked idea else pass)
    else pass
  else pass.

(** The topic field and the generate button are on the page, and the
    current round of ideas is on the page. *)
Definition awaiting_input (σ : session_state) : bool :=
  match σ !! "topic" with Some v => negb (truth v) | None => false end.

Definition round_displayed (σ : session_state) : bool :=
  match σ !! "ideas" with Some v => truth v | None => false end.

End Program.

(** ** The parsing policy

    The value computed by the two comprehensions of [generate_ideas], and
    the policy in the words of the design document, to compare with it. *)

Section Policy.
Context `{Runtime}.

(** Empty or white space only. *)
Definition blank (s : str) : bool := forallb isspace s.

(** The value of [strip_number]: what follows the first [". "] of the
    idea, or the idea when it has none. *)
Definition after_marker (idea : str) : str :=
  match find (py ". ") idea with
  | Some i => drop (i + length (py ". ")) idea
  | None => idea
  end.

Definition parse_response (text : str) : list str :=
  after_marker <$> List.filter numbered (stripped_lines text).

(** What a call of the generator shows and returns, case by case. *)
Definition generated (model : str → response) (topic : str)
    (liked removed : gset str) (round_num : Z) : list effect * list str :=
  if blank topic then ([Warning (py "⚠️ 주제를 입력해주세요.")], [])
  else
    let p := prompt topic liked removed round_num in
    match model p with
    | Failure e =>
        ([Request p; Error (py "⚠️ 아이디어 생성 중 오류가 발생했습니다: " ++ e)], [])
    | Text text =>
        if negb (truthy text) then
          ([Request p;
            Error (py "⚠️ 아이디어 생성에 실패했습니다. 다시 시도해주세요.")], [])
        else
          let ideas := parse_response text in
          if negb (truthy ideas) then
            ([Request p;
              Error (py "⚠️ 생성된 아이디어를 파싱할 수 없습니다. 다시 시도해주세요.")], [])
          else ([Request p], take 5 ideas)
    end.

(** The leading run of digits of a line and what follows it. *)
Fixpoint leading_digits (s : str) : str * str :=
  match s with
  | [] => ([], [])
  | c :: s' =>
      if isdigit c then
        let '(n, rest) := leading_digits s' in (c :: n, rest)
      else ([], s)
  end.

(** The design document: a leading ["N. "] marker is stripped if present,
    otherwise the line is kept as it is. *)
Definition spec_strip_marker (line : str) : str :=
  let '(n, rest) := leading_digits line in
  if truthy n && startswith (py ". ") rest
  then drop (length (py ". ")) rest
  else line.

(** The design document: the text is split into lines, blank lines are
    dropped, a line is kept only if one of its first two characters is a
    digit, and the marker of a kept line is stripped. *)
Definition spec_parse (text : str) : list str :=
  spec_strip_marker <$>
    List.filter (λ line, existsb isdigit (take 2 line))
      (List.filter (λ line, negb (blank line)) (split nl text)).

(** The part of the policy that the parser meets on every line: a line
    made of digits, [". "] and a rest yields the rest, and a line without
    [". "] yields itself. *)
Definition marker_stripped (line idea : str) : Prop :=
  (∀ n rest, line = n ++ py ". " ++ rest →
     forallb isdigit n = true → idea = rest)
  ∧ (contains (py ". ") line = false → idea = line).

End Policy.

(** The response of the design document's parsing example. *)
Definition example_response : str :=
  join nl [py "1. Build a widget"; py "2. Sell a gadget"; py "not numbered";
           py "3. Ship fast"].

Definition default_session : Session :=
  {| topic := []; ideas := []; liked_ideas := ∅; removed_ideas := ∅;
     current_round := 1 |}.

(** The store after a first run of the script on an empty one. *)
Definition fresh : session_state := store_of (init_session_state ∅).

(** The store with a value under a key that had none: the effect of
    [if key not in st.session_state: st.session_state.key = d]. *)
Definition default_to (key : string) (d : value) (σ : session_state)
    : session_state :=
  match σ !! key with Some _ => σ | None => <[key:=d]> σ end.

(** ** The parts of the page

    The rows of the two loops of the script, the part of the script that
    shows the current round, and the start of the script, where a missing
    API key or a failing setup of the service stops the run. *)

(** [st.secrets] as the script finds it: a mapping from names to values
    of the secrets file, or no mapping at all (no secrets file, or one that
    cannot be read), in which case every access to it raises. *)
Inductive secrets (V : Type) :=
  | Unreadable (e : str)
  | Secrets (m : gmap string V).
Arguments Unreadable {V} e.
Arguments Secrets {V} m.

Section Page.
Context `{Runtime}.

(** Body of [for i, idea in enumerate(st.session_state.ideas, 1)]. *)
Definition idea_row (pressed : option button) (row : nat * str) : M unit :=
  let '(i, idea) := row in
  (if st_button pressed (LikeButton i) then on_like idea else pass) ;;
  (if st_button pressed (RemoveButton i) then on_remove idea else pass).

(** Body of [for idea in st.session_state.liked_ideas]. *)
Definition liked_row (pressed : option button) (idea : str) : M unit :=
  if st_button pressed (RemoveLikedButton idea)
  then on_remove_liked idea else pass.

(** The script from [if st.session_state.ideas:] on. *)
Definition display (model : str → response) (pressed : option button)
    : M unit :=
  shown ← getattr "ideas";
  if truth shown then
    ideas ← get_list "ideas";
    for_each (enumerate 1 ideas) (idea_row pressed) ;;
    (if st_button pressed RegenerateButton
     then on_regenerate model else pass) ;;
    liked ← getattr "liked_ideas";
    if truth liked then
      liked ← get_set "liked_ideas";
      for_each (set_iter liked) (liked_row pressed)
    else pass
  else pass.

(** What [genai.configure] and [genai.GenerativeModel] give for a key: the
    model to ask, or an exception. *)
Inductive setup :=
  | Ready (model : str → response)
  | SetupError (e : str).

(** A whole run, from the first line of the file: [None] is a run ended by
    [st.stop()]. The membership test of line 7 is outside any [try], so an
    exception of [st.secrets] ends the run; the set-up of the service is
    inside one. *)
Definition page {V} (st_secrets : secrets V) (configure : V → setup)
    (typed : str) (pressed : option button)
    : session_state → list effect * session_state * option (outcome unit) :=
  λ σ,
    match st_secrets with
    | Unreadable e => ([], σ, Some (Raised e))
    | Secrets m =>
        match m !! "GEMINI_API_KEY" with
        | None =>
            ([Error (py "⚠️ Gemini API 키가 설정되지 않았습니다. `.streamlit/secrets.toml` 파일에 `GEMINI_API_KEY`를 설정해주세요.")],
             σ, None)
        | Some key =>
            match configure key with
            | SetupError e =>
                ([Error (py "⚠️ Gemini API 설정 중 오류가 발생했습니다: " ++ e)],
                 σ, None)
            | Ready model =>
                match script model typed pressed σ with
                | (shown, σ', o) => (shown, σ', Some o)
                end
            end
        end
    end.

(** A set is iterated over its own elements. *)
Definition sound_iteration : Prop := ∀ X x, x ∈ set_iter X → x ∈ X.

End Page.

(** What every session the page reaches satisfies: at most five ideas,
    none of them empty, a round of at least 1, and ideas on the page only
    under a topic and from round 2 on. *)
Definition session_ok (s : Session) : Prop :=
  (length (ideas s) ≤ 5)%nat
  ∧ Forall (λ idea, idea ≠ []) (ideas s)
  ∧ (1 ≤ current_round s)%Z
  ∧ (ideas s ≠ [] → topic s ≠ [] ∧ (2 ≤ current_round s)%Z).

(** The changes of the session that a run can make, by the button that
    was pressed: the cases of the script, collected for the proofs of what
    every run preserves. *)
Inductive move (typed : str) (s : Session)
    : option button → Session → Prop :=
  | move_none pressed : move typed s pressed s
  | move_reset : move typed s (Some ResetButton) default_session
  | move_generate new :
      topic s = [] → typed ≠ [] →
      (length new ≤ 5)%nat → Forall (λ idea, idea ≠ []) new →
      move typed s (Some GenerateButton)
        {| topic := typed; ideas := new; liked_ideas := liked_ideas s;
           removed_ideas := removed_ideas s;
           current_round :=
             if truthy new then current_round s + 1 else current_round s |}
  | move_regenerate new :
      ideas s ≠ [] → new ≠ [] →
      (length new ≤ 5)%nat → Forall (λ idea, idea ≠ []) new →
      move typed s (Some RegenerateButton)
        {| topic := topic s; ideas := new; liked_ideas := liked_ideas s;
           removed_ideas := removed_ideas s;
           current_round := current_round s + 1 |}
  | move_like i idea :
      ideas s !! i = Some idea →
      move typed s (Some (LikeButton (S i)))
        {| topic := topic s; ideas := ideas s;
           liked_ideas := {[idea]} ∪ liked_ideas s;
           removed_ideas := removed_ideas s;
           current_round := current_round s |}
  | move_remove i idea :
      ideas s !! i = Some idea →
      move typed s (Some (RemoveButton (S i)))
        {| topic := topic s; ideas := ideas s;
           liked_ideas := liked_ideas s;
           removed_ideas := {[idea]} ∪ removed_ideas s;
           current_round := current_round s |}
  | move_unlike idea :
      ideas s ≠ [] → idea ∈ liked_ideas s →
      move typed s (Some (RemoveLikedButton idea))
        {| topic := topic s; ideas := ideas s;
           liked_ideas := liked_ideas s ∖ {[idea]};
           removed_ideas := removed_ideas s;
           current_round := current_round s |}.

(** A session with the ideas of the example response on the page, and a
    store that holds it. *)
Definition shown_session : Session :=
  {| topic := py "apps";
     ideas := [py "Build a widget"; py "Sell a gadget"; py "Ship fast"];
     liked_ideas := ∅; removed_ideas := ∅; current_round := 2 |}.

Definition shown : session_state :=
  <["current_round":=VInt 2]>
    (<["ideas":=VList (ideas shown_session)]>
       (<["topic":=VStr (py "apps")]> fresh)).

(** The same page after the third idea was liked. *)
Definition liked_session : Session :=
  {| topic := topic shown_session; ideas := ideas shown_session;
     liked_ideas := {[py "Ship fast"]}; removed_ideas := ∅;
     current_round := 2 |}.

Definition liked_shown : session_state :=
  <["liked_ideas":=VSet {[py "Ship fast"]}]> shown.

Arguments py : simpl never.

(** * Properties *)

Example py_korean : py "없음" = [0xC5C6; 0xC74C].
Proof. reflexivity. Qed.

Example split_lines :
  split nl (py "a" ++ nl ++ py "b" ++ nl ++ nl ++ py "c" ++ nl)
  = [py "a"; py "b"; []; py "c"; []].
Proof. reflexivity. Qed.

Example example_response_text :
  example_response
  = py "1. Build a widget" ++ [0x0A] ++ py "2. Sell a gadget" ++ [0x0A]
    ++ py "not numbered" ++ [0x0A] ++ py "3. Ship fast".
Proof. reflexivity. Qed.

Example strip_ex : strip (py "  1. x  ") = py "1. x".
Proof. reflexivity. Qed.

Example split_max_ex : split_max (py ". ") 1 (py "1. a. b") = [py "1"; py "a. b"].
Proof. reflexivity. Qed.

(** ** Python strings *)

Lemma truthy_false {A} (l : list A) : truthy l = false ↔ l = [].
Proof. by destruct l. Qed.

Lemma truthy_true {A} (l : list A) : truthy l = true ↔ l ≠ [].
Proof. by destruct l. Qed.

Lemma lstrip_head s c s' : lstrip s = c :: s' → isspace c = false.
Proof.
  induction s as [|a s IH]; simpl; [done|].
  destruct (isspace a) eqn:Ha; [done|].
  intros [= <- _]. done.
Qed.

Lemma lstrip_blank s : truthy (lstrip s) = negb (blank s).
Proof.
  induction s as [|a s IH]; simpl; [done|].
  by destruct (isspace a).
Qed.

Lemma blank_app s t : blank (s ++ t) = blank s && blank t.
Proof. apply forallb_app. Qed.

Lemma blank_reverse s : blank (reverse s) = blank s.
Proof.
  induction s as [|a s IH]; [done|].
  rewrite reverse_cons, blank_app, IH. simpl. by rewrite andb_true_r, andb_comm.
Qed.

Lemma blank_lstrip s : blank (lstrip s) = blank s.
Proof.
  induction s as [|a s IH]; simpl; [done|].
  destruct (isspace a) eqn:Ha; simpl; [done|]. by rewrite Ha.
Qed.

Lemma truthy_reverse {A} (l : list A) : truthy (reverse l) = truthy l.
Proof.
  destruct l as [|a l]; [done|]. rewrite reverse_cons.
  by destruct (reverse l).
Qed.

Lemma strip_blank s : truthy (strip s) = negb (blank s).
Proof.
  unfold strip, rstrip.
  by rewrite truthy_reverse, lstrip_blank, blank_reverse, blank_lstrip.
Qed.

Lemma strip_last s c : last (strip s) = Some c → isspace c = false.
Proof.
  unfold strip, rstrip. rewrite last_reverse.
  destruct (lstrip (reverse (lstrip s))) as [|a l] eqn:E; [done|].
  intros [= <-]. by eapply lstrip_head.
Qed.

Lemma startswith_spec sub s :
  startswith sub s = true ↔ ∃ rest, s = sub ++ rest.
Proof.
  revert s. induction sub as [|a sub IH]; intros s; simpl.
  - split; [by eexists|done].
  - destruct s as [|b s]; simpl.
    + split; [done|]. by intros [? ?].
    + rewrite andb_true_iff, IH, N.eqb_eq. split.
      * intros [-> [rest ->]]. by eexists.
      * intros [rest [= -> ->]]. eauto.
Qed.

Lemma find_Some sub s i :
  find sub s = Some i →
  ∃ rest, s = take i s ++ sub ++ rest ∧ length (take i s) = i
          ∧ drop (i + length sub) s = rest.
Proof.
  revert i. induction s as [|a s IH]; intros i.
  - simpl. destruct (startswith sub []) eqn:E; [|done].
    intros [= <-]. apply startswith_spec in E as [rest E].
    exists rest. destruct sub; [|done]. simpl in *. by subst.
  - cbn [find]. destruct (startswith sub (a :: s)) eqn:E.
    + intros [= <-]. apply startswith_spec in E as [rest E].
      exists rest. rewrite E. simpl. split; [done|split; [done|]].
      by rewrite drop_app_length.
    + destruct (find sub s) as [j|] eqn:Ej; [|done].
      intros [= <-]. destruct (IH j eq_refl) as (rest & E1 & E2 & E3).
      exists rest. simpl. by rewrite <- E1, E2, E3.
Qed.

Lemma find_here sub s : startswith sub s = true → find sub s = Some O.
Proof. intros E. destruct s; cbn [find]; by rewrite E. Qed.

Lemma find_next sub a s :
  startswith sub (a :: s) = false → find sub (a :: s) = S <$> find sub s.
Proof. intros E. cbn [find]. by rewrite E. Qed.

Lemma find_past sub1 rest n c :
  Forall (λ x, x ≠ c) n →
  find (c :: sub1) (n ++ (c :: sub1) ++ rest) = Some (length n).
Proof.
  intros Hn. induction Hn as [|a n Ha Hn IH].
  - apply find_here, startswith_spec. by eexists.
  - rewrite <- app_comm_cons, find_next, IH; [done|].
    simpl. apply andb_false_iff. left. apply N.eqb_neq. congruence.
Qed.

(** ** The generator *)

Section Generator.
Context `{Runtime}.

Lemma strip_number_eq idea σ :
  strip_number idea σ = ([], σ, Returned (after_marker idea)).
Proof.
  unfold strip_number, after_marker, contains.
  destruct (find (py ". ") idea) as [i|] eqn:E; [|done].
  cbn [split_max]. by rewrite E.
Qed.

Lemma map_m_strip_number l σ :
  map_m strip_number l σ = ([], σ, Returned (after_marker <$> l)).
Proof.
  induction l as [|idea l IH]; [done|].
  cbn [map_m]. unfold mbind, M_bind at 1.
  rewrite strip_number_eq. unfold M_bind at 1. by rewrite IH.
Qed.

Lemma generate_ideas_eq model topic liked removed round_num σ :
  generate_ideas model topic liked removed round_num σ
  = ((generated model topic liked removed round_num).1, σ,
     Returned (generated model topic liked removed round_num).2).
Proof.
  unfold generate_ideas, generated. rewrite strip_blank, negb_involutive.
  destruct (blank topic); [done|].
  generalize (prompt topic liked removed round_num). intros p.
  unfold try_except, generate_content, mbind, M_bind at 1.
  unfold M_bind at 1. cbn [emit].
  destruct (model p) as [text|e]; [|done].
  cbn [mret M_ret app].
  destruct (truthy text); [|done].
  cbn [negb]. unfold M_bind at 1.
  rewrite map_m_strip_number. fold (parse_response text).
  by destruct (truthy (parse_response text)).
Qed.
End Generator.

(** ** The parser *)

Section Parser.
Context `{Runtime}.

Lemma dot_not_digit n :
  forallb isdigit n = true → Forall (λ x, x ≠ 0x2E) n.
Proof.
  rewrite forallb_forall, Forall_forall. intros Hn x Hx ->.
  apply list_elem_of_In, Hn in Hx. discriminate Hx.
Qed.

Lemma marker_stripped_after line : marker_stripped line (after_marker line).
Proof.
  split.
  - intros n rest -> Hn. unfold after_marker.
    change (py ". ") with [0x2E; 0x20].
    rewrite find_past by by apply dot_not_digit.
    rewrite drop_app_add'; done.
  - unfold contains, after_marker.
    by destruct (find (py ". ") line).
Qed.

Lemma after_marker_nonempty s c :
  last s = Some c → isspace c = false → after_marker s ≠ [].
Proof.
  intros Hlast Hc. unfold after_marker.
  destruct (find (py ". ") s) as [i|] eqn:E.
  - apply find_Some in E as (rest & Hs & _ & ->). intros ->.
    assert (last s = Some 0x20) as Hl.
    { rewrite Hs, last_app. reflexivity. }
    rewrite Hl in Hlast. injection Hlast as <-. discriminate Hc.
  - intros ->. discriminate Hlast.
Qed.

Lemma stripped_lines_last text :
  Forall (λ s, ∃ c, last s = Some c ∧ isspace c = false) (stripped_lines text).
Proof.
  unfold stripped_lines. induction (split nl text) as [|line l IH]; [done|].
  cbn [List.filter]. destruct (truthy (strip line)) eqn:E; [|done].
  rewrite fmap_cons. constructor; [|done].
  destruct (last (strip line)) as [c|] eqn:Ec.
  - exists c. split; [done|]. by eapply strip_last.
  - apply last_None in Ec. by rewrite Ec in E.
Qed.

Lemma parse_response_nonempty text :
  Forall (λ idea, idea ≠ []) (parse_response text).
Proof.
  unfold parse_response.
  induction (stripped_lines_last text) as [|s l (c & Hc & Hs) _ IH]; [done|].
  cbn [List.filter]. destruct (numbered s); [|done].
  rewrite fmap_cons. constructor; [|done]. by eapply after_marker_nonempty.
Qed.

Lemma parse_response_nil : parse_response [] = [].
Proof. reflexivity. Qed.

Lemma parse_example :
  parse_response example_response
  = [py "Build a widget"; py "Sell a gadget"; py "Ship fast"].
Proof. vm_compute. reflexivity. Qed.

End Parser.

(** ** The claims on the generator *)

Section GeneratorTheorems.
Context `{Runtime}.

(** C1 (as amended): the text is split at line feeds, every line is
    stripped of surrounding white space and dropped when nothing is left,
    a stripped line is kept only if one of its first two characters is a
    digit; a kept line made of digits, [". "] and a rest yields the rest,
    a kept line without [". "] yields itself, and the first five of these
    are returned. *)
Theorem parsing_policy model topic liked removed round_num σ text :
  blank topic = false →
  model (prompt topic liked removed round_num) = Text text →
  ∃ parsed,
    Forall2 marker_stripped
      (List.filter (λ line, existsb isdigit (take 2 line))
         (strip <$> List.filter (λ line, negb (blank line)) (split nl text)))
      parsed
    ∧ outcome_of (generate_ideas model topic liked removed round_num σ)
      = Returned (take 5 parsed).
Proof.
  intros Hb Hm. exists (parse_response text). split.
  - unfold parse_response, stripped_lines, numbered.
    rewrite (List.filter_ext (λ line, truthy (strip line))
               (λ line, negb (blank line))) by (intros; apply strip_blank).
    apply Forall2_fmap_r, Forall_Forall2_diag, Forall_forall.
    intros line _. apply marker_stripped_after.
  - rewrite generate_ideas_eq. unfold outcome_of, generated. cbn [snd].
    rewrite Hb. cbv zeta. rewrite Hm.
    destruct text as [|c text]; [done|]. cbn [truthy negb].
    by destruct (parse_response (c :: text)).
Qed.

(** C5: whatever the topic and whatever the service answers, the generator
    returns at most five ideas: nothing, or the first five parsed items. *)
Theorem at_most_five model topic liked removed round_num σ :
  ∃ ideas,
    outcome_of (generate_ideas model topic liked removed round_num σ)
    = Returned ideas
    ∧ (length ideas ≤ 5)%nat
    ∧ (ideas = []
       ∨ ∃ text, model (prompt topic liked removed round_num) = Text text
                 ∧ ideas = take 5 (parse_response text)).
Proof.
  rewrite generate_ideas_eq. eexists. split; [reflexivity|].
  unfold generated. destruct (blank topic); [simpl; auto with lia|].
  cbv zeta. destruct (model _) as [text|e] eqn:Hm; [|simpl; auto with lia].
  destruct (truthy text); [|simpl; auto with lia].
  cbn [negb]. destruct (truthy (parse_response text)); [|simpl; auto with lia].
  cbn [negb snd]. split; [rewrite length_take; lia|]. right. by exists text.
Qed.

(** C6: for a topic that is empty or white space only, at any round and
    with any liked and removed sets, the generator shows the warning,
    returns no idea and sends nothing to the service. *)
Theorem blank_topic_warns model topic liked removed round_num σ :
  blank topic = true →
  generate_ideas model topic liked removed round_num σ
  = ([Warning (py "⚠️ 주제를 입력해주세요.")], σ, Returned [])
  ∧ ∀ p, Request p ∉
      effects_of (generate_ideas model topic liked removed round_num σ).
Proof.
  intros Hb. rewrite generate_ideas_eq. unfold generated. rewrite Hb.
  split; [done|]. intros p Hp. unfold effects_of in Hp. cbn in Hp.
  apply list_elem_of_singleton in Hp. discriminate Hp.
Qed.

(** C7 (as amended): for the example response and any topic that is not
    empty or white space only, the generator returns exactly the three
    numbered ideas, in order. *)
Theorem example_response_parsed model topic liked removed round_num σ :
  blank topic = false →
  model (prompt topic liked removed round_num) = Text example_response →
  outcome_of (generate_ideas model topic liked removed round_num σ)
  = Returned [py "Build a widget"; py "Sell a gadget"; py "Ship fast"].
Proof.
  intros Hb Hm. rewrite generate_ideas_eq. unfold outcome_of, generated.
  rewrite Hb. cbv zeta. rewrite Hm, parse_example. reflexivity.
Qed.

(** C10: every idea the generator returns is a non-empty string. *)
Theorem ideas_nonempty model topic liked removed round_num σ :
  ∃ ideas,
    outcome_of (generate_ideas model topic liked removed round_num σ)
    = Returned ideas
    ∧ Forall (λ idea, idea ≠ []) ideas.
Proof.
  rewrite generate_ideas_eq. eexists. split; [reflexivity|].
  unfold generated. destruct (blank topic); [done|].
  cbv zeta. destruct (model _) as [text|e]; [|done].
  destruct (truthy text); [|done].
  cbn [negb]. destruct (truthy (parse_response text)); [|done].
  apply Forall_take, parse_response_nonempty.
Qed.

End GeneratorTheorems.

Section GeneratorExamples.
#[local] Existing Instance ascii_runtime.

Lemma parsing_policy_witness :
  blank (py "apps") = false
  ∧ ∃ parsed,
      Forall2 marker_stripped
        (List.filter (λ line, existsb isdigit (take 2 line))
           (strip <$> List.filter (λ line, negb (blank line))
              (split nl example_response)))
        parsed
      ∧ outcome_of (generate_ideas (λ _, Text example_response) (py "apps")
                      ∅ ∅ 1 ∅)
        = Returned (take 5 parsed).
Proof.
  split; [reflexivity|].
  apply (parsing_policy (λ _, Text example_response)); reflexivity.
Defined.

(** C1, as worded, fails: a kept line that has no leading number marker
    but a [". "] further on loses its beginning, and a line is judged and
    returned without its surrounding white space. *)
Lemma parsing_policy_counterexample :
  let cut := py "1) Plan ahead. Ship fast" in
  let padded := py "  1. Go" in
  let run text :=
    outcome_of (generate_ideas (λ _, Text text) (py "apps") ∅ ∅ 1 ∅) in
  (run cut = Returned [py "Ship fast"] ∧ spec_parse cut = [cut])
  ∧ (run padded = Returned [py "Go"] ∧ spec_parse padded = [])
  ∧ run cut ≠ Returned (spec_parse cut)
  ∧ run padded ≠ Returned (spec_parse padded).
Proof.
  repeat split; try (vm_compute; reflexivity); vm_compute; discriminate.
Qed.

(** On the example response the worded policy and the parser agree. *)
Example parse_example_agrees :
  parse_response example_response
  = [py "Build a widget"; py "Sell a gadget"; py "Ship fast"]
  ∧ parse_response (py "12. Twelve. And more") = [py "Twelve. And more"]
  ∧ parse_response (py "7 wonders") = [py "7 wonders"].
Proof. repeat split; vm_compute; reflexivity. Qed.

Lemma blank_topic_warns_witness :
  blank ([0x20; 0x09; 0x3000]) = true
  ∧ generate_ideas (λ _, Text example_response) ([0x20; 0x09; 0x3000]) ∅ ∅ 3 ∅
    = ([Warning (py "⚠️ 주제를 입력해주세요.")], ∅, Returned []).
Proof.
  split; [reflexivity|].
  apply (blank_topic_warns (λ _, Text example_response)). reflexivity.
Defined.

Lemma example_response_parsed_witness :
  blank (py "apps") = false
  ∧ outcome_of (generate_ideas (λ _, Text example_response) (py "apps")
                  ∅ ∅ 1 ∅)
    = Returned [py "Build a widget"; py "Sell a gadget"; py "Ship fast"].
Proof.
  split; [reflexivity|].
  apply (example_response_parsed (λ _, Text example_response)); reflexivity.
Defined.

(** C7, as worded, fails for a topic that is not empty but holds white
    space only: the generator returns nothing. *)
Lemma example_response_counterexample :
  py " " ≠ []
  ∧ outcome_of (generate_ideas (λ _, Text example_response) (py " ") ∅ ∅ 1 ∅)
    ≠ Returned [py "Build a widget"; py "Sell a gadget"; py "Ship fast"].
Proof. split; vm_compute; discriminate. Qed.

End GeneratorExamples.
(** ** The session store *)

Lemma bind_returned {A B} (m : M A) (f : A → M B) σ t σ1 a :
  m σ = (t, σ1, Returned a) →
  (m ≫= f) σ = match f a σ1 with (t', σ2, o) => (t ++ t', σ2, o) end.
Proof. intros E. unfold mbind, M_bind. by rewrite E. Qed.

Lemma bind_silent {A B} (m : M A) (f : A → M B) σ σ1 a :
  m σ = ([], σ1, Returned a) → (m ≫= f) σ = f a σ1.
Proof.
  intros E. rewrite (bind_returned _ _ _ _ _ _ E).
  by destruct (f a σ1) as [[t' σ2] o].
Qed.

Lemma delete_if_present key (σ : session_state) :
  (present ← has_key key; if present : bool then delitem key else pass) σ
  = ([], delete key σ, Returned tt).
Proof.
  erewrite bind_returned by reflexivity.
  unfold delitem, pass, mret, M_ret. case_bool_decide as Hk.
  - destruct Hk as [v Hv]. by rewrite Hv.
  - rewrite delete_id; [done|]. by apply eq_None_not_Some.
Qed.

Lemma for_each_delete keys (σ : session_state) :
  for_each keys (λ key : string,
    (present ← has_key key;
     if present : bool then delitem key else pass) : M unit) σ
  = ([], foldl (λ m key, delete key m) σ keys, Returned tt).
Proof.
  revert σ. induction keys as [|key keys IH]; intros σ; [done|].
  cbn [for_each foldl]. erewrite bind_returned by apply delete_if_present.
  by rewrite IH.
Qed.

Lemma reset_session_state_eq (σ : session_state) :
  reset_session_state σ
  = ([], <["current_round":=VInt 1]> (<["removed_ideas":=VSet ∅]>
           (<["liked_ideas":=VSet ∅]> (<["ideas":=VList []]>
              (<["topic":=VStr []]> (cleared σ))))),
     Returned tt).
Proof.
  unfold reset_session_state.
  erewrite bind_returned by apply for_each_delete. reflexivity.
Qed.

Lemma snapshot_Some (σ : session_state) t i l r n :
  σ !! "topic" = Some (VStr t) → σ !! "ideas" = Some (VList i) →
  σ !! "liked_ideas" = Some (VSet l) → σ !! "removed_ideas" = Some (VSet r) →
  σ !! "current_round" = Some (VInt n) →
  snapshot σ = Some {| topic := t; ideas := i; liked_ideas := l;
                       removed_ideas := r; current_round := n |}.
Proof. intros Ht Hi Hl Hr Hn. unfold snapshot. by rewrite Ht, Hi, Hl, Hr, Hn. Qed.

Lemma snapshot_inv (σ : session_state) s :
  snapshot σ = Some s →
  σ !! "topic" = Some (VStr (topic s)) ∧ σ !! "ideas" = Some (VList (ideas s))
  ∧ σ !! "liked_ideas" = Some (VSet (liked_ideas s))
  ∧ σ !! "removed_ideas" = Some (VSet (removed_ideas s))
  ∧ σ !! "current_round" = Some (VInt (current_round s)).
Proof.
  unfold snapshot. intros Hs.
  repeat match type of Hs with
         | context [match ?x with _ => _ end] => destruct x; try discriminate Hs
         end.
  by injection Hs as <-.
Qed.

(** C8: whatever the store held, after [reset_session_state] the five
    fields are the empty topic, no ideas, empty liked and removed sets and
    round 1; a second reset changes nothing more. *)
Theorem reset_fixed_and_idempotent (σ : session_state) :
  outcome_of (reset_session_state σ) = Returned tt
  ∧ snapshot (store_of (reset_session_state σ)) = Some default_session
  ∧ store_of (reset_session_state (store_of (reset_session_state σ)))
    = store_of (reset_session_state σ).
Proof.
  rewrite !reset_session_state_eq. unfold store_of, outcome_of. cbn [fst snd].
  split; [done|]. split.
  - by apply snapshot_Some; simplify_map_eq.
  - unfold cleared, session_keys. cbn [foldl].
    apply map_eq. intros k.
    repeat (rewrite lookup_insert || rewrite lookup_delete); 
    repeat case_decide; done.
Qed.

(** Keys other than the five fields survive a reset. *)
Lemma reset_other_keys (σ : session_state) key :
  key ∉ session_keys →
  store_of (reset_session_state σ) !! key = σ !! key.
Proof.
  intros Hk. rewrite reset_session_state_eq.
  unfold store_of, cleared, session_keys in *. cbn [fst snd foldl].
  rewrite !not_elem_of_cons in Hk.
  destruct Hk as (? & ? & ? & ? & ? & _).
  by rewrite !lookup_insert_ne, !lookup_delete_ne by done.
Qed.

(** ** The handlers *)

Lemma getattr_eq (σ : session_state) key v :
  σ !! key = Some v → getattr key σ = ([], σ, Returned v).
Proof. intros E. unfold getattr. by rewrite E. Qed.

Lemma get_str_eq (σ : session_state) key x :
  σ !! key = Some (VStr x) → get_str key σ = ([], σ, Returned x).
Proof.
  intros E. unfold get_str. by erewrite bind_returned by by apply getattr_eq.
Qed.

Lemma get_list_eq (σ : session_state) key x :
  σ !! key = Some (VList x) → get_list key σ = ([], σ, Returned x).
Proof.
  intros E. unfold get_list. by erewrite bind_returned by by apply getattr_eq.
Qed.

Lemma get_set_eq (σ : session_state) key x :
  σ !! key = Some (VSet x) → get_set key σ = ([], σ, Returned x).
Proof.
  intros E. unfold get_set. by erewrite bind_returned by by apply getattr_eq.
Qed.

Lemma get_int_eq (σ : session_state) key x :
  σ !! key = Some (VInt x) → get_int key σ = ([], σ, Returned x).
Proof.
  intros E. unfold get_int. by erewrite bind_returned by by apply getattr_eq.
Qed.

Ltac lookup_field := simplify_map_eq; done.

Ltac step :=
  erewrite bind_silent by
    first [ apply get_set_eq; lookup_field
          | apply get_int_eq; lookup_field
          | apply get_str_eq; lookup_field
          | apply get_list_eq; lookup_field
          | apply getattr_eq; lookup_field
          | reflexivity ].

Section Handlers.
Context `{Runtime}.

Lemma on_like_eq (σ : session_state) liked idea :
  σ !! "liked_ideas" = Some (VSet liked) →
  on_like idea σ = ([], <["liked_ideas":=VSet ({[idea]} ∪ liked)]> σ, Rerun).
Proof. intros E. unfold on_like. by do 2 step. Qed.

Lemma on_remove_eq (σ : session_state) removed idea :
  σ !! "removed_ideas" = Some (VSet removed) →
  on_remove idea σ
  = ([], <["removed_ideas":=VSet ({[idea]} ∪ removed)]> σ, Rerun).
Proof. intros E. unfold on_remove. by do 2 step. Qed.

Lemma on_remove_liked_eq (σ : session_state) liked idea :
  σ !! "liked_ideas" = Some (VSet liked) → idea ∈ liked →
  on_remove_liked idea σ
  = ([], <["liked_ideas":=VSet (liked ∖ {[idea]})]> σ, Rerun).
Proof.
  intros E Hin. unfold on_remove_liked. step.
  rewrite bool_decide_eq_true_2 by done. by step.
Qed.

Lemma on_regenerate_eq model (σ : session_state) s :
  snapshot σ = Some s →
  on_regenerate model σ
  = let g := generated model (topic s) (liked_ideas s) (removed_ideas s)
               (current_round s) in
    (g.1,
     if truthy g.2
     then <["current_round":=VInt (current_round s + 1)]>
            (<["ideas":=VList g.2]> σ)
     else σ,
     Rerun).
Proof.
  intros (Ht & Hi & Hl & Hr & Hn)%snapshot_inv. unfold on_regenerate.
  do 4 step. erewrite bind_returned by apply generate_ideas_eq.
  cbv zeta. destruct (truthy _).
  - erewrite bind_returned by (do 2 step; reflexivity).
    cbn. by rewrite !app_nil_r.
  - step. cbn. by rewrite !app_nil_r.
Qed.

Lemma on_generate_eq model typed (σ : session_state) s :
  snapshot σ = Some s →
  on_generate model typed σ
  = let g := generated model typed (liked_ideas s) (removed_ideas s)
               (current_round s) in
    let σ1 := <["ideas":=VList g.2]> (<["topic":=VStr typed]> σ) in
    (g.1,
     if truthy g.2
     then <["current_round":=VInt (current_round s + 1)]> σ1
     else σ1,
     Rerun).
Proof.
  intros (Ht & Hi & Hl & Hr & Hn)%snapshot_inv. unfold on_generate.
  do 4 step. erewrite bind_returned by apply generate_ideas_eq.
  do 2 step. cbv zeta. cbn [truth]. destruct (truthy _).
  - erewrite bind_returned by (step; reflexivity).
    cbn. by rewrite !app_nil_r.
  - step. cbn. by rewrite !app_nil_r.
Qed.

End Handlers.

(** ** The script and its handlers *)

Section Script.
Context `{Runtime}.

Lemma init_session_state_id (σ : session_state) s :
  snapshot σ = Some s → init_session_state σ = ([], σ, Returned tt).
Proof.
  intros (Ht & Hi & Hl & Hr & Hn)%snapshot_inv. unfold init_session_state.
  assert (∀ key v d, σ !! key = Some v →
    (b ← has_key key; if negb b then setattr key d else pass) σ
    = ([], σ, Returned tt)) as Hkey.
  { intros key v d Hv. erewrite bind_silent by reflexivity.
    rewrite bool_decide_eq_true_2 by by eexists. reflexivity. }
  repeat (erewrite bind_silent by (eapply Hkey; eassumption)).
  eapply Hkey; eassumption.
Qed.

Lemma for_each_pass {A} (l : list A) (body : A → M unit) σ :
  (∀ x, body x σ = ([], σ, Returned tt)) →
  for_each l body σ = ([], σ, Returned tt).
Proof.
  intros Hbody. induction l as [|x l IH]; [done|].
  cbn [for_each]. by erewrite bind_silent by apply Hbody.
Qed.

Lemma bind_rerun {A B} (m : M A) (f : A → M B) σ t σ1 :
  m σ = (t, σ1, Rerun) → (m ≫= f) σ = (t, σ1, Rerun).
Proof. intros E. unfold mbind, M_bind. by rewrite E. Qed.

Lemma st_button_pressed b : st_button (Some b) b = true.
Proof. by apply bool_decide_eq_true_2. Qed.

Lemma st_button_other b b' : b ≠ b' → st_button (Some b) b' = false.
Proof. intros Hb. apply bool_decide_eq_false_2. congruence. Qed.

(** The generate button, pressed while the topic field is on the page with
    a text in it, runs [on_generate]. *)
Lemma script_generate model typed (σ : session_state) s :
  snapshot σ = Some s → topic s = [] → typed ≠ [] →
  script model typed (Some GenerateButton) σ = on_generate model typed σ.
Proof.
  intros Hs Ht Hty. pose proof (on_generate_eq model typed σ s Hs) as Hg.
  pose proof (snapshot_inv _ _ Hs) as (Ht' & _). rewrite Ht in Ht'.
  unfold script.
  erewrite bind_silent by by eapply init_session_state_id.
  rewrite (st_button_other _ ResetButton) by done. do 2 step.
  cbn [truth truthy negb]. rewrite st_button_pressed.
  rewrite (proj2 (truthy_true typed)) by done. cbn [andb].
  cbv zeta in Hg. rewrite Hg. by apply bind_rerun.
Qed.

(** The regenerate button, pressed while ideas are on the page, runs
    [on_regenerate]. *)
Lemma script_regenerate model typed (σ : session_state) s :
  snapshot σ = Some s → ideas s ≠ [] →
  script model typed (Some RegenerateButton) σ = on_regenerate model σ.
Proof.
  intros Hs Hi. pose proof (on_regenerate_eq model σ s Hs) as Hg.
  pose proof (snapshot_inv _ _ Hs) as (Ht' & Hi' & _).
  unfold script.
  erewrite bind_silent by by eapply init_session_state_id.
  rewrite (st_button_other _ ResetButton) by done. do 2 step.
  rewrite (st_button_other _ GenerateButton) by done.
  assert ((if negb (truth (VStr (topic s))) then (typed, false)
           else ([], false)).2 = false) as Hno by by destruct (negb _).
  destruct (if negb (truth (VStr (topic s))) then _ else _) as [t g].
  cbn [snd] in Hno. subst g. cbn [andb]. do 2 step.
  cbn [truth]. rewrite (proj2 (truthy_true (ideas s))) by done. step.
  erewrite bind_silent.
  2:{ apply for_each_pass. intros [i idea].
      rewrite !st_button_other by done. by step. }
  rewrite st_button_pressed.
  cbv zeta in Hg. rewrite Hg. by apply bind_rerun.
Qed.

End Script.

(** ** The claims on the handlers *)

Section HandlerTheorems.
Context `{Runtime}.

Lemma returned_generate_ideas model topic liked removed round_num σ :
  returned (generate_ideas model topic liked removed round_num σ)
  = (generated model topic liked removed round_num).2.
Proof. by rewrite generate_ideas_eq. Qed.

(** C2: a generation, initial or repeated, adds exactly one to the round
    counter when the generator returns ideas and leaves it as it is when
    the generator returns none. *)
Theorem round_counter model typed (σ : session_state) s :
  snapshot σ = Some s →
  let first := returned (generate_ideas model typed (liked_ideas s)
                           (removed_ideas s) (current_round s) σ) in
  let again := returned (generate_ideas model (topic s) (liked_ideas s)
                           (removed_ideas s) (current_round s) σ) in
  round_of (store_of (on_generate model typed σ))
  = Some (if truthy first then current_round s + 1 else current_round s)%Z
  ∧ round_of (store_of (on_regenerate model σ))
    = Some (if truthy again then current_round s + 1 else current_round s)%Z.
Proof.
  intros Hs first again. subst first again.
  rewrite !returned_generate_ideas.
  rewrite (on_generate_eq _ _ _ _ Hs), (on_regenerate_eq _ _ _ Hs).
  apply snapshot_inv in Hs as (Ht & Hi & Hl & Hr & Hn).
  unfold round_of, store_of. cbv zeta. cbn [fst snd]. split.
  - destruct (truthy _);
      (erewrite snapshot_Some; [reflexivity|simplify_map_eq; done..]).
  - destruct (truthy _);
      (erewrite snapshot_Some; [reflexivity|simplify_map_eq; done..]).
Qed.

(** What the first generation leaves when the generator returns nothing:
    the typed topic is stored all the same. *)
Lemma on_generate_failed model typed (σ : session_state) s :
  snapshot σ = Some s →
  returned (generate_ideas model typed (liked_ideas s) (removed_ideas s)
              (current_round s) σ) = [] →
  snapshot (store_of (on_generate model typed σ))
  = Some {| topic := typed; ideas := []; liked_ideas := liked_ideas s;
            removed_ideas := removed_ideas s;
            current_round := current_round s |}.
Proof.
  intros Hs. rewrite returned_generate_ideas, (on_generate_eq _ _ _ _ Hs).
  apply snapshot_inv in Hs as (Ht & Hi & Hl & Hr & Hn).
  unfold store_of. cbv zeta. cbn [fst snd]. intros ->. cbn [truthy].
  apply snapshot_Some; simplify_map_eq; done.
Qed.

(** C4: when the regeneration returns no idea the store is left as it was;
    when it returns ideas they replace the list and the round counter
    grows by one, the other fields staying as they were. *)
Theorem regenerate_replaces_or_keeps model (σ : session_state) s :
  snapshot σ = Some s →
  let new_ideas := returned (generate_ideas model (topic s) (liked_ideas s)
                               (removed_ideas s) (current_round s) σ) in
  if truthy new_ideas
  then snapshot (store_of (on_regenerate model σ))
       = Some {| topic := topic s; ideas := new_ideas;
                 liked_ideas := liked_ideas s;
                 removed_ideas := removed_ideas s;
                 current_round := current_round s + 1 |}
  else store_of (on_regenerate model σ) = σ.
Proof.
  intros Hs new_ideas. subst new_ideas. rewrite returned_generate_ideas.
  rewrite (on_regenerate_eq _ _ _ Hs).
  apply snapshot_inv in Hs as (Ht & Hi & Hl & Hr & Hn).
  unfold store_of. cbv zeta. cbn [fst snd].
  destruct (truthy _); [|done].
  apply snapshot_Some; simplify_map_eq; done.
Qed.

(** C9: right after an idea was liked, the remove button of the liked list
    takes it out of the liked set and changes nothing else: the removed
    set and the other fields are those of before. *)
Theorem like_then_unlike idea (σ : session_state) s :
  snapshot σ = Some s →
  let σ1 := store_of (on_like idea σ) in
  let r := on_remove_liked idea σ1 in
  ∃ s1 s2,
    snapshot σ1 = Some s1 ∧ idea ∈ liked_ideas s1
    ∧ outcome_of r = Rerun
    ∧ snapshot (store_of r) = Some s2
    ∧ (idea ∉ liked_ideas s2)
    ∧ removed_ideas s2 = removed_ideas s1
    ∧ topic s2 = topic s1 ∧ ideas s2 = ideas s1
    ∧ current_round s2 = current_round s1
    ∧ ∀ key, key ≠ "liked_ideas" → store_of r !! key = σ1 !! key.
Proof.
  intros (Ht & Hi & Hl & Hr & Hn)%snapshot_inv σ1 r. subst σ1 r.
  rewrite (on_like_eq _ _ _ Hl). unfold store_of, outcome_of. cbn [fst snd].
  rewrite (on_remove_liked_eq _ ({[idea]} ∪ liked_ideas s))
    by (by simplify_map_eq || set_solver).
  cbn [fst snd]. eexists _, _. split; [apply snapshot_Some; simplify_map_eq; done|].
  split; [cbn; set_solver|]. split; [done|].
  split; [apply snapshot_Some; simplify_map_eq; done|].
  split.
  { cbn. intros [_ Hout]%elem_of_difference. by apply Hout, elem_of_singleton. }
  repeat (split; [done|]).
  intros key Hkey. by rewrite !lookup_insert_ne.
Qed.

End HandlerTheorems.

Section HandlerExamples.
#[local] Existing Instance ascii_runtime.

Example fresh_snapshot :
  snapshot fresh = Some default_session ∧ awaiting_input fresh = true.
Proof. split; vm_compute; reflexivity. Qed.

Lemma round_counter_witness :
  snapshot fresh = Some default_session
  ∧ round_of (store_of (on_generate (λ _, Text example_response)
                          (py "apps") fresh)) = Some 2%Z
  ∧ round_of (store_of (on_regenerate (λ _, Text example_response) fresh))
    = Some 1%Z.
Proof.
  split; [reflexivity|].
  apply (round_counter (λ _, Text example_response) (py "apps") fresh
           default_session).
  reflexivity.
Defined.

(** The rounds of the design document's scenario: a successful first
    generation, a failed regeneration, a successful regeneration. *)
Example round_scenario :
  let σ1 := store_of (script (λ _, Text example_response) (py "apps")
                        (Some GenerateButton) fresh) in
  let σ2 := store_of (script (λ _, Failure (py "quota exceeded")) []
                        (Some RegenerateButton) σ1) in
  let σ3 := store_of (script (λ _, Text (py "1. Ship sooner")) []
                        (Some RegenerateButton) σ2) in
  round_of fresh = Some 1%Z ∧ round_of σ1 = Some 2%Z
  ∧ round_of σ2 = Some 2%Z ∧ ideas <$> snapshot σ2 = ideas <$> snapshot σ1
  ∧ round_of σ3 = Some 3%Z
  ∧ ideas <$> snapshot σ3 = Some [py "Ship sooner"].
Proof. repeat split; vm_compute; reflexivity. Qed.

(** Liking the second idea on the page, then removing it from the liked
    list, through the script. *)
Example like_unlike_scenario :
  let σ1 := store_of (script (λ _, Text example_response) (py "apps")
                        (Some GenerateButton) fresh) in
  let σ2 := store_of (script (λ _, Text example_response) []
                        (Some (LikeButton 2)) σ1) in
  let σ3 := store_of (script (λ _, Text example_response) []
                        (Some (RemoveLikedButton (py "Sell a gadget"))) σ2) in
  liked_ideas <$> snapshot σ2 = Some {[py "Sell a gadget"]}
  ∧ liked_ideas <$> snapshot σ3 = Some ∅
  ∧ removed_ideas <$> snapshot σ3 = removed_ideas <$> snapshot σ2.
Proof. repeat split; vm_compute; reflexivity. Qed.

Lemma regenerate_replaces_or_keeps_witness :
  snapshot shown = Some shown_session
  ∧ store_of (on_regenerate (λ _, Failure (py "quota exceeded")) shown)
    = shown
  ∧ snapshot (store_of (on_regenerate (λ _, Text (py "1. Ship sooner"))
                          shown))
    = Some {| topic := py "apps"; ideas := [py "Ship sooner"];
              liked_ideas := ∅; removed_ideas := ∅; current_round := 3 |}.
Proof.
  split; [reflexivity|]. split.
  - apply (regenerate_replaces_or_keeps (λ _, Failure (py "quota exceeded"))
             shown shown_session).
    reflexivity.
  - apply (regenerate_replaces_or_keeps (λ _, Text (py "1. Ship sooner"))
             shown shown_session).
    reflexivity.
Defined.

Lemma like_then_unlike_witness :
  snapshot fresh = Some default_session
  ∧ ∃ s1 s2,
      snapshot (store_of (on_like (py "X") fresh)) = Some s1
      ∧ py "X" ∈ liked_ideas s1
      ∧ outcome_of (on_remove_liked (py "X")
                      (store_of (on_like (py "X") fresh))) = Rerun
      ∧ snapshot (store_of (on_remove_liked (py "X")
                              (store_of (on_like (py "X") fresh)))) = Some s2
      ∧ (py "X" ∉ liked_ideas s2)
      ∧ removed_ideas s2 = removed_ideas s1
      ∧ topic s2 = topic s1 ∧ ideas s2 = ideas s1
      ∧ current_round s2 = current_round s1
      ∧ ∀ key, key ≠ "liked_ideas" →
          store_of (on_remove_liked (py "X")
                      (store_of (on_like (py "X") fresh))) !! key
          = store_of (on_like (py "X") fresh) !! key.
Proof.
  split; [reflexivity|].
  apply (like_then_unlike (py "X") fresh default_session). reflexivity.
Defined.

(** C3: the generate button pressed on a fresh page with a topic for which
    the generator returns nothing (the service fails, or the topic holds
    white space only) leaves ideas, sets and round as they were, but the
    topic is overwritten and the topic field is no longer on the page. *)
Theorem failed_generation_overwrites_topic :
  let failing := script (λ _, Failure (py "quota exceeded")) (py "cats")
                   (Some GenerateButton) fresh in
  let blank_topic := script (λ _, Text example_response) (py " ")
                       (Some GenerateButton) fresh in
  snapshot fresh = Some default_session
  ∧ awaiting_input fresh = true
  ∧ snapshot (store_of failing)
    = Some {| topic := py "cats"; ideas := []; liked_ideas := ∅;
              removed_ideas := ∅; current_round := 1 |}
  ∧ awaiting_input (store_of failing) = false
  ∧ round_displayed (store_of failing) = false
  ∧ snapshot (store_of blank_topic)
    = Some {| topic := py " "; ideas := []; liked_ideas := ∅;
              removed_ideas := ∅; current_round := 1 |}
  ∧ awaiting_input (store_of blank_topic) = false
  ∧ round_displayed (store_of blank_topic) = false.
Proof. repeat split; vm_compute; reflexivity. Qed.

End HandlerExamples.

(** * Further properties of the generator *)

Lemma find_single_None c s : find [c] s = None → c ∉ s.
Proof.
  induction s as [|a s IH]; [intros _; apply not_elem_of_nil|].
  cbn [find startswith]. rewrite andb_true_r.
  destruct (c =? a) eqn:E; [done|].
  destruct (find [c] s); [done|]. intros _.
  apply not_elem_of_cons. split; [by apply N.eqb_neq|by apply IH].
Qed.

Lemma find_single_Some c s i : find [c] s = Some i → c ∉ take i s.
Proof.
  revert i. induction s as [|a s IH]; intros i.
  - destruct i; intros _; apply not_elem_of_nil.
  - cbn [find startswith]. rewrite andb_true_r.
    destruct (c =? a) eqn:E.
    + intros [= <-]. apply not_elem_of_nil.
    + destruct (find [c] s) as [j|]; [|done]. intros [= <-].
      cbn [take]. apply not_elem_of_cons.
      split; [by apply N.eqb_neq|by apply IH].
Qed.

Lemma split_max_single c fuel s :
  (length s ≤ fuel)%nat → Forall (λ piece, c ∉ piece) (split_max [c] fuel s).
Proof.
  revert s. induction fuel as [|fuel IH]; intros s Hs.
  - destruct s; [|simpl in Hs; lia]. repeat constructor. apply not_elem_of_nil.
  - cbn [split_max]. destruct (find [c] s) as [i|] eqn:E.
    + constructor; [by apply find_single_Some|].
      apply IH. rewrite length_drop. cbn [length]. lia.
    + repeat constructor. by apply find_single_None.
Qed.

Lemma lstrip_suffix s : lstrip s `suffix_of` s.
Proof.
  induction s as [|a s IH]; [done|]. cbn [lstrip].
  destruct (isspace a); [by apply suffix_cons_r|done].
Qed.

Lemma strip_elem_of x s : x ∈ strip s → x ∈ s.
Proof.
  unfold strip, rstrip. rewrite elem_of_reverse. intros Hx.
  pose proof (elem_of_suffix _ _ _ Hx (lstrip_suffix _)) as Hy.
  rewrite elem_of_reverse in Hy.
  apply (elem_of_suffix _ _ _ Hy), lstrip_suffix.
Qed.

Lemma after_marker_suffix idea : after_marker idea `suffix_of` idea.
Proof.
  unfold after_marker. destruct (find (py ". ") idea); [|done].
  apply suffix_drop.
Qed.

Section GeneratorMore.
Context `{Runtime}.

Lemma parse_response_nil_iff text :
  parse_response text = []
  ↔ Forall (λ line, numbered (strip line) = false) (split nl text).
Proof.
  unfold parse_response, stripped_lines.
  induction (split nl text) as [|line l IH]; [done|].
  cbn [List.filter]. rewrite Forall_cons.
  destruct (truthy (strip line)) eqn:E.
  - rewrite fmap_cons. cbn [List.filter].
    destruct (numbered (strip line)).
    + rewrite fmap_cons. split; [done|]. by intros [? _].
    + rewrite IH. tauto.
  - apply truthy_false in E. rewrite E, IH.
    change (numbered []) with false. tauto.
Qed.

(** X1: the index of [idea.split('. ', 1)[1]] is always in range: the
    expression never raises, touches nothing, and gives a tail of the
    idea. *)
Theorem strip_number_in_range idea σ :
  ∃ rest, strip_number idea σ = ([], σ, Returned rest)
          ∧ rest `suffix_of` idea.
Proof.
  exists (after_marker idea).
  split; [apply strip_number_eq|apply after_marker_suffix].
Qed.

(** X2: an exception of the service is caught: the request went out once,
    one error banner carries the text of the exception, and the result is
    the empty list. *)
Theorem service_failure_reported model topic liked removed round_num σ e :
  blank topic = false →
  model (prompt topic liked removed round_num) = Failure e →
  generate_ideas model topic liked removed round_num σ
  = ([Request (prompt topic liked removed round_num);
      Error (py "⚠️ 아이디어 생성 중 오류가 발생했습니다: " ++ e)],
     σ, Returned []).
Proof.
  intros Hb Hm. rewrite generate_ideas_eq. unfold generated.
  by rewrite Hb, Hm.
Qed.

(** X3: the empty list is the failure signal: the generator returns no
    idea exactly when it shows a warning or an error banner. *)
Theorem empty_result_iff_banner model topic liked removed round_num σ :
  returned (generate_ideas model topic liked removed round_num σ) = []
  ↔ ∃ msg,
      Warning msg ∈ effects_of
        (generate_ideas model topic liked removed round_num σ)
      ∨ Error msg ∈ effects_of
          (generate_ideas model topic liked removed round_num σ).
Proof.
  rewrite generate_ideas_eq. unfold returned, outcome_of, effects_of.
  cbn [fst snd]. unfold generated.
  destruct (blank topic).
  { split; [intros _|done]. eexists. left. apply list_elem_of_here. }
  cbv zeta. destruct (model _) as [text|e].
  2:{ split; [intros _|done]. eexists. right.
      apply list_elem_of_further, list_elem_of_here. }
  destruct (truthy text); cbn [negb].
  2:{ split; [intros _|done]. eexists. right.
      apply list_elem_of_further, list_elem_of_here. }
  destruct (parse_response text) as [|idea ideas] eqn:E; cbn [truthy negb].
  { split; [intros _|done]. eexists. right.
      apply list_elem_of_further, list_elem_of_here. }
  cbn [fst snd take]. split; [done|].
  intros [msg [Hm|Hm]]; apply list_elem_of_singleton in Hm; discriminate Hm.
Qed.

(** X4: for a topic that is not blank the service is asked exactly once,
    with the prompt of the call, before any banner. *)
Theorem one_request_per_call model topic liked removed round_num σ :
  blank topic = false →
  ∃ banners,
    effects_of (generate_ideas model topic liked removed round_num σ)
    = Request (prompt topic liked removed round_num) :: banners
    ∧ ∀ p, Request p ∉ banners.
Proof.
  intros Hb. rewrite generate_ideas_eq. unfold effects_of. cbn [fst snd].
  unfold generated. rewrite Hb. cbv zeta.
  assert (∀ msg p, Request p ∉ [Error msg]) as Hno.
  { intros msg p Hp. apply list_elem_of_singleton in Hp. discriminate Hp. }
  destruct (model _) as [text|e]; [|by eexists].
  destruct (truthy text); cbn [negb]; [|by eexists].
  destruct (truthy (parse_response text)); cbn [negb]; [|by eexists].
  eexists. split; [done|]. intros p. apply not_elem_of_nil.
Qed.

(** X5: for a topic that is not blank and a response text, the generator
    returns nothing exactly when no line of the text, stripped, has a digit
    among its first two characters. *)
Theorem no_idea_iff_no_numbered_line model topic liked removed round_num σ
    text :
  blank topic = false →
  model (prompt topic liked removed round_num) = Text text →
  returned (generate_ideas model topic liked removed round_num σ) = []
  ↔ Forall (λ line, numbered (strip line) = false) (split nl text).
Proof.
  intros Hb Hm. rewrite generate_ideas_eq. unfold returned, outcome_of.
  cbn [fst snd]. unfold generated. rewrite Hb. cbv zeta. rewrite Hm.
  rewrite <- parse_response_nil_iff.
  destruct text as [|c text]; [done|]. cbn [truthy negb].
  destruct (parse_response (c :: text)); [done|]. cbn [truthy negb snd].
  done.
Qed.

(** X6: up to round 1 the liked and removed sets do not reach the service:
    the call does the same whatever the two sets are. *)
Theorem first_round_ignores_feedback model topic liked removed liked' removed'
    round_num σ :
  (round_num ≤ 1)%Z →
  generate_ideas model topic liked removed round_num σ
  = generate_ideas model topic liked' removed' round_num σ.
Proof.
  intros Hr. unfold generate_ideas, prompt, feedback_context.
  by rewrite (proj2 (Z.ltb_ge 1 round_num)) by done.
Qed.

Lemma returned_from_lines model topic liked removed round_num σ :
  Forall (λ idea,
      ∃ text line,
        model (prompt topic liked removed round_num) = Text text
        ∧ line ∈ split nl text
        ∧ strip line ≠ []
        ∧ idea = after_marker (strip line))
    (returned (generate_ideas model topic liked removed round_num σ)).
Proof.
  rewrite generate_ideas_eq. unfold returned, outcome_of. cbn [fst snd].
  unfold generated. destruct (blank topic); [done|].
  cbv zeta. destruct (model _) as [text|e] eqn:Hm; [|done].
  destruct (truthy text); cbn [negb]; [|done].
  destruct (truthy (parse_response text)); cbn [negb snd]; [|done].
  apply Forall_take, Forall_forall. intros idea Hin.
  unfold parse_response, stripped_lines in Hin.
  apply list_elem_of_fmap in Hin as (s & -> & Hs).
  apply list_elem_of_In, filter_In in Hs as [Hs _].
  apply list_elem_of_In, list_elem_of_fmap in Hs as (line & -> & Hline).
  apply list_elem_of_In, filter_In in Hline as [Hline Hne].
  apply list_elem_of_In in Hline. apply truthy_true in Hne.
  by exists text, line.
Qed.

(** X7: the parser invents no text: every idea returned is the tail of a
    line of the response, stripped, and does not end in white space. *)
Theorem ideas_are_line_tails model topic liked removed round_num σ :
  Forall (λ idea,
      ∃ text line c,
        model (prompt topic liked removed round_num) = Text text
        ∧ line ∈ split nl text
        ∧ idea `suffix_of` strip line
        ∧ last idea = Some c ∧ isspace c = false)
    (returned (generate_ideas model topic liked removed round_num σ)).
Proof.
  eapply Forall_impl; [apply returned_from_lines|]. cbn beta.
  intros idea (text & line & Hm & Hline & Hne & ->).
  destruct (last (strip line)) as [c|] eqn:Hc.
  2:{ by apply last_None in Hc. }
  pose proof (strip_last _ _ Hc) as Hsp.
  pose proof (after_marker_nonempty _ _ Hc Hsp) as Hidea.
  pose proof (after_marker_suffix (strip line)) as Hsuf.
  exists text, line, c. repeat (split; [done|]). split; [|done].
  destruct Hsuf as [k Hk]. rewrite Hk, last_app in Hc.
  destruct (last (after_marker (strip line))) eqn:E; [done|].
  by apply last_None in E.
Qed.

(** X8: every idea returned is a single line: it holds no line feed. *)
Theorem ideas_hold_no_line_feed model topic liked removed round_num σ :
  Forall (λ idea, 0x0A ∉ idea)
    (returned (generate_ideas model topic liked removed round_num σ)).
Proof.
  eapply Forall_impl; [apply returned_from_lines|]. cbn beta.
  intros idea (text & line & Hm & Hline & Hne & ->) Hin.
  pose proof (elem_of_suffix _ _ _ Hin (after_marker_suffix _)) as Hs.
  apply strip_elem_of in Hs.
  pose proof (split_max_single 0x0A (length text) text (le_n _)) as Hall.
  rewrite Forall_forall in Hall. by apply (Hall line Hline).
Qed.

End GeneratorMore.

(** * Further properties of the page *)

Lemma bind_raised {A B} (m : M A) (f : A → M B) σ t σ1 e :
  m σ = (t, σ1, Raised e) → (m ≫= f) σ = (t, σ1, Raised e).
Proof. intros E. unfold mbind, M_bind. by rewrite E. Qed.

Section Rows.
Context `{Runtime}.

Lemma script_display model typed pressed :
  script model typed pressed
  = (init_session_state ;;
     (if st_button pressed ResetButton
      then reset_session_state ;; st_rerun else pass) ;;
     current ← getattr "topic";
     let '(topic, generate_clicked) :=
       if negb (truth current)
       then (typed, st_button pressed GenerateButton)
       else ([], false) in
     (if generate_clicked && truthy topic
      then on_generate model topic else pass) ;;
     display model pressed).
Proof. reflexivity. Qed.

Lemma idea_row_other pressed k x σ :
  pressed ≠ Some (LikeButton k) → pressed ≠ Some (RemoveButton k) →
  idea_row pressed (k, x) σ = ([], σ, Returned tt).
Proof.
  intros Hl Hr. unfold idea_row, st_button.
  rewrite !bool_decide_eq_false_2 by done. by step.
Qed.

Lemma idea_row_like k x (σ : session_state) liked :
  σ !! "liked_ideas" = Some (VSet liked) →
  idea_row (Some (LikeButton k)) (k, x) σ = on_like x σ.
Proof.
  intros Hl. unfold idea_row. rewrite st_button_pressed.
  rewrite (on_like_eq _ _ _ Hl). apply bind_rerun. by apply on_like_eq.
Qed.

Lemma idea_row_remove k x (σ : session_state) removed :
  σ !! "removed_ideas" = Some (VSet removed) →
  idea_row (Some (RemoveButton k)) (k, x) σ = on_remove x σ.
Proof.
  intros Hl. unfold idea_row. rewrite st_button_pressed.
  rewrite (st_button_other _ (LikeButton k)) by done. by step.
Qed.

Lemma idea_rows_skip pressed k l σ :
  (∀ i, pressed ≠ Some (LikeButton i)) →
  (∀ i, pressed ≠ Some (RemoveButton i)) →
  for_each (enumerate k l) (idea_row pressed) σ = ([], σ, Returned tt).
Proof.
  intros Hl Hr. apply for_each_pass. intros [i idea].
  by apply idea_row_other.
Qed.

Lemma idea_rows_like_miss i k l σ :
  (i < k ∨ k + length l ≤ i)%nat →
  for_each (enumerate k l) (idea_row (Some (LikeButton i))) σ
  = ([], σ, Returned tt).
Proof.
  revert k. induction l as [|x l IH]; intros k Hi; [done|].
  cbn [enumerate for_each length] in *.
  erewrite bind_silent
    by (apply idea_row_other; [intros [= ->]; lia|done]).
  apply IH. lia.
Qed.

Lemma idea_rows_remove_miss i k l σ :
  (i < k ∨ k + length l ≤ i)%nat →
  for_each (enumerate k l) (idea_row (Some (RemoveButton i))) σ
  = ([], σ, Returned tt).
Proof.
  revert k. induction l as [|x l IH]; intros k Hi; [done|].
  cbn [enumerate for_each length] in *.
  erewrite bind_silent
    by (apply idea_row_other; [done|intros [= ->]; lia]).
  apply IH. lia.
Qed.

Lemma idea_rows_like i idea k l (σ : session_state) liked :
  σ !! "liked_ideas" = Some (VSet liked) → l !! i = Some idea →
  for_each (enumerate k l) (idea_row (Some (LikeButton (k + i)))) σ
  = on_like idea σ.
Proof.
  intros Hl. revert k i. induction l as [|x l IH]; intros k i Hi; [done|].
  cbn [enumerate for_each]. destruct i as [|i].
  - injection Hi as ->. rewrite Nat.add_0_r.
    rewrite (on_like_eq _ _ _ Hl). apply bind_rerun.
    rewrite (idea_row_like _ _ _ _ Hl). by apply on_like_eq.
  - erewrite bind_silent
      by (apply idea_row_other; [intros [= ?]; lia|done]).
    rewrite <- Nat.add_succ_comm. by apply IH.
Qed.

Lemma idea_rows_remove i idea k l (σ : session_state) removed :
  σ !! "removed_ideas" = Some (VSet removed) → l !! i = Some idea →
  for_each (enumerate k l) (idea_row (Some (RemoveButton (k + i)))) σ
  = on_remove idea σ.
Proof.
  intros Hl. revert k i. induction l as [|x l IH]; intros k i Hi; [done|].
  cbn [enumerate for_each]. destruct i as [|i].
  - injection Hi as ->. rewrite Nat.add_0_r.
    rewrite (on_remove_eq _ _ _ Hl). apply bind_rerun.
    rewrite (idea_row_remove _ _ _ _ Hl). by apply on_remove_eq.
  - erewrite bind_silent
      by (apply idea_row_other; [done|intros [= ?]; lia]).
    rewrite <- Nat.add_succ_comm. by apply IH.
Qed.

Lemma on_remove_liked_missing (σ : session_state) liked idea :
  σ !! "liked_ideas" = Some (VSet liked) → idea ∉ liked →
  on_remove_liked idea σ = ([], σ, Raised idea).
Proof.
  intros E Hin. unfold on_remove_liked. step.
  rewrite bool_decide_eq_false_2 by done. by apply bind_raised.
Qed.

Lemma liked_rows_skip pressed l σ :
  (∀ x, pressed ≠ Some (RemoveLikedButton x)) →
  for_each l (liked_row pressed) σ = ([], σ, Returned tt).
Proof.
  intros Hp. apply for_each_pass. intros x. unfold liked_row, st_button.
  by rewrite bool_decide_eq_false_2.
Qed.

Lemma liked_rows_miss x l σ :
  x ∉ l →
  for_each l (liked_row (Some (RemoveLikedButton x))) σ
  = ([], σ, Returned tt).
Proof.
  induction l as [|y l IH]; [done|]. intros [Hy Hl]%not_elem_of_cons.
  cbn [for_each].
  erewrite bind_silent; [by apply IH|]. unfold liked_row.
  by rewrite st_button_other by congruence.
Qed.

Lemma liked_rows_hit x l (σ : session_state) liked :
  σ !! "liked_ideas" = Some (VSet liked) → x ∈ l →
  for_each l (liked_row (Some (RemoveLikedButton x))) σ
  = on_remove_liked x σ.
Proof.
  intros Hl. induction l as [|y l IH]; [by intros ?%elem_of_nil|].
  intros Hx. cbn [for_each].
  destruct (decide (y = x)) as [->|Hy].
  - assert (liked_row (Some (RemoveLikedButton x)) x = on_remove_liked x)
      as -> by (unfold liked_row; by rewrite st_button_pressed).
    destruct (decide (x ∈ liked)) as [Hin|Hin].
    + rewrite (on_remove_liked_eq _ _ _ Hl Hin).
      apply bind_rerun. by apply (on_remove_liked_eq _ _ _ Hl Hin).
    + rewrite (on_remove_liked_missing _ _ _ Hl Hin).
      apply bind_raised. by apply (on_remove_liked_missing _ _ _ Hl Hin).
  - erewrite bind_silent.
    2:{ unfold liked_row. by rewrite st_button_other by congruence. }
    apply IH. apply elem_of_cons in Hx as [->|Hx]; done.
Qed.

End Rows.

(** ** The store and the handlers *)

Lemma default_if_missing key d (σ : session_state) :
  (b ← has_key key; if negb b then setattr key d else pass) σ
  = ([], default_to key d σ, Returned tt).
Proof.
  erewrite bind_silent by reflexivity. unfold default_to.
  case_bool_decide as Hk.
  - destruct Hk as [v Hv]. by rewrite Hv.
  - apply eq_None_not_Some in Hk. by rewrite Hk.
Qed.

Lemma lookup_default_to key d (σ : session_state) k :
  default_to key d σ !! k
  = match σ !! k with
    | Some v => Some v
    | None => if decide (key = k) then Some d else None
    end.
Proof.
  unfold default_to. destruct (σ !! key) as [v|] eqn:E.
  - destruct (σ !! k) eqn:Ek; [done|]. case_decide; [congruence|done].
  - rewrite lookup_insert. case_decide; [subst; by rewrite E|].
    by destruct (σ !! k).
Qed.

Lemma init_session_state_eq (σ : session_state) :
  init_session_state σ
  = ([], default_to "current_round" (VInt 1)
           (default_to "removed_ideas" (VSet ∅)
              (default_to "liked_ideas" (VSet ∅)
                 (default_to "ideas" (VList [])
                    (default_to "topic" (VStr []) σ)))),
     Returned tt).
Proof.
  unfold init_session_state.
  repeat (erewrite bind_silent by apply default_if_missing).
  apply default_if_missing.
Qed.

(** X9: a reset touches the five session keys only: it shows nothing,
    raises nothing, and every other key of the store, such as the one of
    the topic field, keeps its value. *)
Theorem reset_keeps_other_keys (σ : session_state) key :
  key ∉ session_keys →
  reset_session_state σ
  = ([], store_of (reset_session_state σ), Returned tt)
  ∧ store_of (reset_session_state σ) !! key = σ !! key.
Proof.
  intros Hk. split; [by rewrite reset_session_state_eq|].
  by apply reset_other_keys.
Qed.

(** X10: the defaults at the top of a run only fill what is missing: a
    key of the store keeps its value, and a missing key gets the value it
    has in a fresh store (none, unless it is one of the five). *)
Theorem init_fills_missing_keys (σ : session_state) key :
  init_session_state σ
  = ([], store_of (init_session_state σ), Returned tt)
  ∧ store_of (init_session_state σ) !! key
    = match σ !! key with
      | Some v => Some v
      | None => fresh !! key
      end.
Proof.
  unfold fresh. rewrite !init_session_state_eq. unfold store_of.
  cbn [fst snd]. split; [done|].
  rewrite !lookup_default_to, lookup_empty.
  destruct (σ !! key); [done|]. by repeat case_decide.
Qed.

(** X11: the defaults are idempotent: a second pass over any store
    changes nothing. *)
Theorem init_idempotent (σ : session_state) :
  init_session_state (store_of (init_session_state σ))
  = ([], store_of (init_session_state σ), Returned tt).
Proof.
  rewrite !init_session_state_eq. unfold store_of. cbn [fst snd].
  do 2 f_equal. apply map_eq. intros k.
  rewrite !lookup_default_to. destruct (σ !! k); [done|].
  by repeat case_decide.
Qed.

Section HandlersMore.
Context `{rt : Runtime}.

(** X12: liking is idempotent: a second like of the same idea leaves the
    store as the first one made it. *)
Theorem like_twice_is_like_once idea (σ : session_state) s :
  snapshot σ = Some s →
  store_of (on_like idea (store_of (on_like idea σ)))
  = store_of (on_like idea σ).
Proof.
  intros (_ & _ & Hl & _)%snapshot_inv.
  rewrite (on_like_eq _ _ _ Hl). unfold store_of at 2 3. cbn [fst snd].
  erewrite on_like_eq by by simplify_map_eq.
  unfold store_of. cbn [fst snd]. rewrite insert_insert_eq.
  do 2 f_equal. apply set_eq. intros y. rewrite !elem_of_union. tauto.
Qed.

(** X13: liking an idea that was not liked and then removing it from the
    liked list gives back the very store of before. *)
Theorem like_then_unlike_restores idea (σ : session_state) s :
  snapshot σ = Some s → idea ∉ liked_ideas s →
  store_of (on_remove_liked idea (store_of (on_like idea σ))) = σ.
Proof.
  intros (_ & _ & Hl & _)%snapshot_inv Hin.
  rewrite (on_like_eq _ _ _ Hl). unfold store_of at 2. cbn [fst snd].
  erewrite on_remove_liked_eq;
    [|by simplify_map_eq|by apply elem_of_union_l, elem_of_singleton].
  unfold store_of. cbn [fst snd]. rewrite insert_insert_eq.
  apply insert_id. rewrite Hl. do 2 f_equal. apply set_eq. intros y.
  rewrite elem_of_difference, elem_of_union, elem_of_singleton.
  split; [|tauto]. intros Hy. split; [tauto|]. by intros ->.
Qed.

(** X14: the liked and the removed sets are independent: liking one idea
    and removing another give the same store in either order, and an idea
    both liked and removed is in both sets. *)
Theorem like_and_remove_commute x y (σ : session_state) s :
  snapshot σ = Some s →
  store_of (on_remove y (store_of (on_like x σ)))
  = store_of (on_like x (store_of (on_remove y σ)))
  ∧ ∃ s', snapshot (store_of (on_remove x (store_of (on_like x σ))))
          = Some s'
          ∧ x ∈ liked_ideas s' ∧ x ∈ removed_ideas s'.
Proof.
  intros (Ht & Hi & Hl & Hr & Hn)%snapshot_inv.
  rewrite (on_like_eq _ _ _ Hl), (on_remove_eq _ _ _ Hr).
  unfold store_of. cbn [fst snd].
  erewrite !on_remove_eq by by simplify_map_eq.
  erewrite on_like_eq by by simplify_map_eq. cbn [fst snd].
  split; [by apply insert_insert_ne|].
  eexists. split; [apply snapshot_Some; simplify_map_eq; done|].
  cbn. split; by apply elem_of_union_l, elem_of_singleton.
Qed.

(** X15: [set.remove] on an idea that is not liked raises, and leaves the
    store as it was and the page without a banner. *)
Theorem unlike_missing_raises idea (σ : session_state) s :
  snapshot σ = Some s → idea ∉ liked_ideas s →
  ∃ e, on_remove_liked idea σ = ([], σ, Raised e).
Proof.
  intros (_ & _ & Hl & _)%snapshot_inv Hin. exists idea.
  by eapply on_remove_liked_missing.
Qed.

End HandlersMore.

(** ** The script, button by button *)

Section ScriptCases.
Context `{rt : Runtime}.

Lemma st_button_ne pressed b : pressed ≠ Some b → st_button pressed b = false.
Proof. intros Hb. by apply bool_decide_eq_false_2. Qed.

Lemma display_empty model pressed (σ : session_state) s :
  snapshot σ = Some s → ideas s = [] →
  display model pressed σ = ([], σ, Returned tt).
Proof.
  intros (_ & Hi & _)%snapshot_inv He. unfold display. step.
  by rewrite He.
Qed.

Lemma display_full model pressed (σ : session_state) s :
  snapshot σ = Some s → ideas s ≠ [] →
  display model pressed σ
  = (for_each (enumerate 1 (ideas s)) (idea_row pressed) ;;
     (if st_button pressed RegenerateButton
      then on_regenerate model else pass) ;;
     liked ← getattr "liked_ideas";
     if truth liked then
       liked ← get_set "liked_ideas";
       for_each (set_iter liked) (liked_row pressed)
     else pass) σ.
Proof.
  intros (_ & Hi & _)%snapshot_inv He. unfold display. step.
  cbn [truth]. rewrite (proj2 (truthy_true (ideas s))) by done. by step.
Qed.

Lemma liked_part_skip pressed (σ : session_state) s :
  snapshot σ = Some s →
  (∀ x, pressed ≠ Some (RemoveLikedButton x)) →
  (liked ← getattr "liked_ideas";
   if truth liked then
     liked ← get_set "liked_ideas";
     for_each (set_iter liked) (liked_row pressed)
   else pass) σ = ([], σ, Returned tt).
Proof.
  intros (_ & _ & Hl & _)%snapshot_inv Hp. step.
  destruct (truth _); [|done]. step. by apply liked_rows_skip.
Qed.

Lemma display_skip model pressed (σ : session_state) s :
  snapshot σ = Some s →
  (∀ i, pressed ≠ Some (LikeButton i)) →
  (∀ i, pressed ≠ Some (RemoveButton i)) →
  pressed ≠ Some RegenerateButton →
  (∀ x, pressed ≠ Some (RemoveLikedButton x)) →
  display model pressed σ = ([], σ, Returned tt).
Proof.
  intros Hs Hl Hr Hg Hu. destruct (decide (ideas s = [])) as [He|He].
  { by eapply display_empty. }
  rewrite (display_full _ _ _ _ Hs He).
  erewrite bind_silent by by apply idea_rows_skip.
  rewrite (st_button_ne _ RegenerateButton) by done. step.
  by eapply liked_part_skip.
Qed.

Lemma display_like model i idea (σ : session_state) s :
  snapshot σ = Some s → ideas s !! i = Some idea →
  display model (Some (LikeButton (S i))) σ = on_like idea σ.
Proof.
  intros Hs Hi. pose proof (snapshot_inv _ _ Hs) as (_ & _ & Hl & _).
  rewrite (display_full _ _ _ _ Hs) by (intros He; by rewrite He in Hi).
  rewrite (on_like_eq _ _ _ Hl). apply bind_rerun.
  change (S i) with (1 + i)%nat. rewrite (idea_rows_like _ _ _ _ _ _ Hl Hi).
  by apply on_like_eq.
Qed.

Lemma display_remove model i idea (σ : session_state) s :
  snapshot σ = Some s → ideas s !! i = Some idea →
  display model (Some (RemoveButton (S i))) σ = on_remove idea σ.
Proof.
  intros Hs Hi. pose proof (snapshot_inv _ _ Hs) as (_ & _ & _ & Hr & _).
  rewrite (display_full _ _ _ _ Hs) by (intros He; by rewrite He in Hi).
  rewrite (on_remove_eq _ _ _ Hr). apply bind_rerun.
  change (S i) with (1 + i)%nat. rewrite (idea_rows_remove _ _ _ _ _ _ Hr Hi).
  by apply on_remove_eq.
Qed.

Lemma display_like_miss model i (σ : session_state) s :
  snapshot σ = Some s → (i = 0 ∨ length (ideas s) < i)%nat →
  display model (Some (LikeButton i)) σ = ([], σ, Returned tt).
Proof.
  intros Hs Hi. destruct (decide (ideas s = [])) as [He|He].
  { by eapply display_empty. }
  rewrite (display_full _ _ _ _ Hs He).
  erewrite bind_silent by (apply idea_rows_like_miss; lia).
  rewrite st_button_other by done. step. by eapply liked_part_skip.
Qed.

Lemma display_remove_miss model i (σ : session_state) s :
  snapshot σ = Some s → (i = 0 ∨ length (ideas s) < i)%nat →
  display model (Some (RemoveButton i)) σ = ([], σ, Returned tt).
Proof.
  intros Hs Hi. destruct (decide (ideas s = [])) as [He|He].
  { by eapply display_empty. }
  rewrite (display_full _ _ _ _ Hs He).
  erewrite bind_silent by (apply idea_rows_remove_miss; lia).
  rewrite st_button_other by done. step. by eapply liked_part_skip.
Qed.

Lemma display_regenerate model (σ : session_state) s :
  snapshot σ = Some s → ideas s ≠ [] →
  display model (Some RegenerateButton) σ = on_regenerate model σ.
Proof.
  intros Hs He. rewrite (display_full _ _ _ _ Hs He).
  erewrite bind_silent by by apply idea_rows_skip.
  rewrite st_button_pressed. pose proof (on_regenerate_eq model σ s Hs) as Hg.
  cbv zeta in Hg. rewrite Hg. by apply bind_rerun.
Qed.

Lemma display_unlike model x (σ : session_state) s :
  snapshot σ = Some s → ideas s ≠ [] → liked_ideas s ≠ ∅ →
  x ∈ set_iter (liked_ideas s) →
  display model (Some (RemoveLikedButton x)) σ = on_remove_liked x σ.
Proof.
  intros Hs He Hne Hx. pose proof (snapshot_inv _ _ Hs) as (_ & _ & Hl & _).
  rewrite (display_full _ _ _ _ Hs He).
  erewrite bind_silent by by apply idea_rows_skip.
  rewrite st_button_other by done. do 2 step.
  cbn [truth]. rewrite bool_decide_eq_true_2 by done. step.
  by eapply liked_rows_hit.
Qed.

Lemma display_unlike_miss model x (σ : session_state) s :
  snapshot σ = Some s →
  ideas s = [] ∨ liked_ideas s = ∅ ∨ x ∉ set_iter (liked_ideas s) →
  display model (Some (RemoveLikedButton x)) σ = ([], σ, Returned tt).
Proof.
  intros Hs Hx. pose proof (snapshot_inv _ _ Hs) as (_ & _ & Hl & _).
  destruct (decide (ideas s = [])) as [He|He].
  { by eapply display_empty. }
  rewrite (display_full _ _ _ _ Hs He).
  erewrite bind_silent by by apply idea_rows_skip.
  rewrite st_button_other by done. do 2 step.
  cbn [truth]. case_bool_decide as Hne; [|done]. step.
  apply liked_rows_miss. by destruct Hx as [?|[?|?]].
Qed.

Lemma script_past model typed pressed (σ : session_state) s :
  snapshot σ = Some s → pressed ≠ Some ResetButton →
  pressed ≠ Some GenerateButton ∨ topic s ≠ [] ∨ typed = [] →
  script model typed pressed σ = display model pressed σ.
Proof.
  intros Hs Hr Hg. pose proof (snapshot_inv _ _ Hs) as (Ht & _).
  rewrite script_display.
  erewrite bind_silent by by eapply init_session_state_id.
  rewrite (st_button_ne _ ResetButton) by done.
  do 2 step. cbn [truth].
  assert ((let '(topic, generate_clicked) :=
             if negb (truthy (topic s))
             then (typed, st_button pressed GenerateButton)
             else ([], false) in
           generate_clicked && truthy topic) = false) as Hno.
  { destruct (topic s) as [|c t]; cbn [truthy negb]; [|done].
    destruct Hg as [Hg | [Hg | ->] ]; [|done|by rewrite andb_false_r].
    by rewrite st_button_ne. }
  destruct (if negb (truthy (topic s)) then _ else _) as [t g].
  rewrite Hno. by step.
Qed.

Lemma script_reset model typed (σ : session_state) :
  script model typed (Some ResetButton) σ
  = ([], store_of (reset_session_state (store_of (init_session_state σ))),
     Rerun).
Proof.
  rewrite script_display.
  erewrite bind_silent by apply init_session_state_eq.
  rewrite st_button_pressed. apply bind_rerun.
  erewrite bind_silent by apply reset_session_state_eq.
  by rewrite init_session_state_eq, reset_session_state_eq.
Qed.

End ScriptCases.

(** ** What every run preserves *)

Lemma reset_snapshot (σ : session_state) :
  snapshot (store_of (reset_session_state σ)) = Some default_session.
Proof.
  rewrite reset_session_state_eq. unfold store_of. cbn [fst snd].
  by apply snapshot_Some; simplify_map_eq.
Qed.

Section Moves.
Context `{rt : Runtime}.

Lemma generated_ok model topic liked removed round_num :
  (length (generated model topic liked removed round_num).2 ≤ 5)%nat
  ∧ Forall (λ idea, idea ≠ [])
      (generated model topic liked removed round_num).2.
Proof.
  unfold generated. destruct (blank topic); [by split; [cbn; lia|]|].
  cbv zeta. destruct (model _) as [text|e]; [|by split; [cbn; lia|]].
  destruct (truthy text); cbn [negb]; [|by split; [cbn; lia|]].
  destruct (truthy (parse_response text)); cbn [negb snd];
    [|by split; [cbn; lia|]].
  split; [rewrite length_take; lia|].
  apply Forall_take, parse_response_nonempty.
Qed.

Lemma script_moves model typed pressed (σ : session_state) s :
  snapshot σ = Some s →
  ∃ s',
    snapshot (store_of (script model typed pressed σ)) = Some s'
    ∧ move typed s pressed s'
    ∧ (pressed ≠ Some GenerateButton → pressed ≠ Some RegenerateButton →
       effects_of (script model typed pressed σ) = [])
    ∧ (sound_iteration →
       ∀ e, outcome_of (script model typed pressed σ) ≠ Raised e).
Proof.
  intros Hs. pose proof (snapshot_inv _ _ Hs) as (Ht & Hi & Hl & Hr & Hn).
  assert (∀ r : list effect * session_state * outcome (),
    r = ([], σ, Returned tt) →
    ∃ s', snapshot (store_of r) = Some s' ∧ move typed s pressed s'
          ∧ (pressed ≠ Some GenerateButton →
             pressed ≠ Some RegenerateButton → effects_of r = [])
          ∧ (sound_iteration → ∀ e, outcome_of r ≠ Raised e)) as Hidle.
  { intros r ->. exists s. repeat split; [done|apply move_none|done..]. }
  destruct pressed as [[| |i|i| |x]|].
  - (* reset *)
    rewrite script_reset. exists default_session.
    repeat split; [apply reset_snapshot|apply move_reset|done..].
  - (* generate *)
    destruct (decide (topic s = [])) as [Het|Het];
      [destruct (decide (typed = [])) as [Hety|Hety]|].
    + apply Hidle. rewrite (script_past _ _ _ _ _ Hs) by auto.
      by eapply display_skip.
    + rewrite (script_generate _ _ _ _ Hs Het Hety).
      rewrite (on_generate_eq _ _ _ _ Hs). cbv zeta.
      destruct (generated_ok model typed (liked_ideas s) (removed_ideas s)
                  (current_round s)) as [Hlen Hall].
      eexists. split; [|split; [by apply (move_generate _ _ _ Het Hety Hlen Hall)|done]].
      unfold store_of. cbn [fst snd].
      destruct (truthy _); apply snapshot_Some; simplify_map_eq; done.
    + apply Hidle. rewrite (script_past _ _ _ _ _ Hs) by auto.
      by eapply display_skip.
  - (* like *)
    rewrite (script_past _ _ _ _ _ Hs) by auto.
    destruct i as [|i]; [apply Hidle; eapply display_like_miss; eauto|].
    destruct (ideas s !! i) as [idea|] eqn:Hidea.
    + rewrite (display_like _ _ _ _ _ Hs Hidea), (on_like_eq _ _ _ Hl).
      eexists. split; [|split; [by apply (move_like _ _ _ _ Hidea)|done]].
      unfold store_of. cbn [fst snd]. apply snapshot_Some; simplify_map_eq; done.
    + apply Hidle. eapply display_like_miss; [done|].
      apply lookup_ge_None in Hidea. lia.
  - (* remove *)
    rewrite (script_past _ _ _ _ _ Hs) by auto.
    destruct i as [|i]; [apply Hidle; eapply display_remove_miss; eauto|].
    destruct (ideas s !! i) as [idea|] eqn:Hidea.
    + rewrite (display_remove _ _ _ _ _ Hs Hidea), (on_remove_eq _ _ _ Hr).
      eexists. split; [|split; [by apply (move_remove _ _ _ _ Hidea)|done]].
      unfold store_of. cbn [fst snd]. apply snapshot_Some; simplify_map_eq; done.
    + apply Hidle. eapply display_remove_miss; [done|].
      apply lookup_ge_None in Hidea. lia.
  - (* regenerate *)
    rewrite (script_past _ _ _ _ _ Hs) by auto.
    destruct (decide (ideas s = [])) as [He|He].
    { apply Hidle. by eapply display_empty. }
    rewrite (display_regenerate _ _ _ Hs He), (on_regenerate_eq _ _ _ Hs).
    cbv zeta.
    destruct (generated_ok model (topic s) (liked_ideas s) (removed_ideas s)
                (current_round s)) as [Hlen Hall].
    unfold store_of, effects_of, outcome_of. cbn [fst snd].
    destruct (truthy _) eqn:Hnew.
    + apply truthy_true in Hnew. eexists.
      split; [|split; [by apply (move_regenerate _ _ _ He Hnew Hlen Hall)|done]].
      apply snapshot_Some; simplify_map_eq; done.
    + exists s. repeat split; [done|apply move_none|done..].
  - (* remove from the liked list *)
    rewrite (script_past _ _ _ _ _ Hs) by auto.
    destruct (decide (ideas s = [])) as [He|He].
    { apply Hidle. eapply display_unlike_miss; eauto. }
    destruct (decide (liked_ideas s = ∅)) as [Hne|Hne].
    { apply Hidle. eapply display_unlike_miss; eauto. }
    destruct (decide (x ∈ set_iter (liked_ideas s))) as [Hx|Hx].
    2:{ apply Hidle. eapply display_unlike_miss; eauto. }
    rewrite (display_unlike _ _ _ _ Hs He Hne Hx).
    destruct (decide (x ∈ liked_ideas s)) as [Hin|Hin].
    + rewrite (on_remove_liked_eq _ _ _ Hl Hin).
      eexists. split; [|split; [by apply (move_unlike _ _ _ He Hin)|done]].
      unfold store_of. cbn [fst snd]. apply snapshot_Some; simplify_map_eq; done.
    + rewrite (on_remove_liked_missing _ _ _ Hl Hin).
      exists s. split; [done|]. split; [apply move_none|]. split; [done|].
      intros Hsound. by apply Hsound in Hx.
  - (* no button *)
    apply Hidle. rewrite (script_past _ _ _ _ _ Hs) by auto.
    by eapply display_skip.
Qed.

End Moves.

Lemma move_session_ok typed s pressed s' :
  move typed s pressed s' → session_ok s → session_ok s'.
Proof.
  intros Hm (Hlen & Hall & Hround & Hshown).
  destruct Hm as [?| |new Ht Hty Hl Ha|new He Hnew Hl Ha|i idea Hi|i idea Hi
                  |idea He Hin]; unfold session_ok; cbn; try done.
  - split; [lia|]. split; [done|]. split; [lia|done].
  - split; [done|]. split; [done|]. destruct new; cbn [truthy].
    + split; [lia|done].
    + split; [lia|]. intros _. split; [done|lia].
  - split; [done|]. split; [done|]. split; [lia|]. intros _.
    split; [by apply Hshown|lia].
Qed.

Section ScriptTheorems.
Context `{rt : Runtime}.

(** X16: every run keeps the session sound: from a store with at most
    five ideas, none empty, a round of at least 1, and ideas only under a
    topic and from round 2 on, any button and any answer of the service
    lead to a store of the same kind. *)
Theorem script_keeps_session_ok model typed pressed (σ : session_state) s :
  snapshot σ = Some s → session_ok s →
  ∃ s', snapshot (store_of (script model typed pressed σ)) = Some s'
        ∧ session_ok s'.
Proof.
  intros Hs Hok.
  destruct (script_moves model typed pressed σ s Hs) as (s' & Hs' & Hm & _).
  exists s'. split; [done|]. by eapply move_session_ok.
Qed.

(** X17: when a set is iterated over its own elements, no run of the
    script ends in an exception, whatever the button and the service. *)
Theorem script_never_raises model typed pressed (σ : session_state) s e :
  snapshot σ = Some s → sound_iteration →
  outcome_of (script model typed pressed σ) ≠ Raised e.
Proof.
  intros Hs Hsound.
  destruct (script_moves model typed pressed σ s Hs) as (_ & _ & _ & _ & Hr).
  by apply Hr.
Qed.

(** X18: but for the reset button, a run never lowers the round counter,
    and raises it by one at most. *)
Theorem round_never_decreases model typed pressed (σ : session_state) s :
  snapshot σ = Some s → pressed ≠ Some ResetButton →
  ∃ s', snapshot (store_of (script model typed pressed σ)) = Some s'
        ∧ (current_round s ≤ current_round s' ≤ current_round s + 1)%Z.
Proof.
  intros Hs Hp.
  destruct (script_moves model typed pressed σ s Hs) as (s' & Hs' & Hm & _).
  exists s'. split; [done|].
  destruct Hm; cbn; try lia; [done|]. destruct (truthy new); lia.
Qed.

(** X19: but for the reset button, no run takes an idea out of the removed
    set: an idea once removed stays removed. *)
Theorem removed_ideas_stay model typed pressed (σ : session_state) s :
  snapshot σ = Some s → pressed ≠ Some ResetButton →
  ∃ s', snapshot (store_of (script model typed pressed σ)) = Some s'
        ∧ removed_ideas s ⊆ removed_ideas s'.
Proof.
  intros Hs Hp.
  destruct (script_moves model typed pressed σ s Hs) as (s' & Hs' & Hm & _).
  exists s'. split; [done|].
  destruct Hm; cbn; try done. apply union_subseteq_r.
Qed.

(** X20: a topic, once stored, is changed by the reset button only. *)
Theorem topic_stays model typed pressed (σ : session_state) s :
  snapshot σ = Some s → pressed ≠ Some ResetButton → topic s ≠ [] →
  ∃ s', snapshot (store_of (script model typed pressed σ)) = Some s'
        ∧ topic s' = topic s.
Proof.
  intros Hs Hp Ht.
  destruct (script_moves model typed pressed σ s Hs) as (s' & Hs' & Hm & _).
  exists s'. split; [done|]. by destruct Hm.
Qed.

(** X21: only the generate and the regenerate buttons reach the service:
    a run for any other button, or for none, sends no request and shows no
    banner. *)
Theorem other_buttons_are_silent model typed pressed (σ : session_state) s :
  snapshot σ = Some s →
  pressed ≠ Some GenerateButton → pressed ≠ Some RegenerateButton →
  effects_of (script model typed pressed σ) = [].
Proof.
  intros Hs Hg Hr.
  destruct (script_moves model typed pressed σ s Hs) as (_ & _ & _ & He & _).
  by apply He.
Qed.

(** X22: a run without a pressed button only shows the page: the store is
    left as it was, nothing is sent, and the run ends normally. *)
Theorem render_changes_nothing model typed (σ : session_state) s :
  snapshot σ = Some s →
  script model typed None σ = ([], σ, Returned tt).
Proof.
  intros Hs. rewrite (script_past _ _ _ _ _ Hs) by auto.
  by eapply display_skip.
Qed.

(** X23: the reset button works from any store, sound or not: the run
    ends in a rerun with the fresh session and has shown nothing. *)
Theorem reset_button_from_any_store model typed (σ : session_state) :
  effects_of (script model typed (Some ResetButton) σ) = []
  ∧ outcome_of (script model typed (Some ResetButton) σ) = Rerun
  ∧ snapshot (store_of (script model typed (Some ResetButton) σ))
    = Some default_session.
Proof.
  rewrite script_reset. repeat split. apply reset_snapshot.
Qed.

(** X24: the generate button runs its handler only while no topic is
    stored and the topic field holds a text; otherwise the run does
    nothing. *)
Theorem generate_button model typed (σ : session_state) s :
  snapshot σ = Some s →
  script model typed (Some GenerateButton) σ
  = if negb (truthy (topic s)) && truthy typed
    then on_generate model typed σ
    else ([], σ, Returned tt).
Proof.
  intros Hs. destruct (decide (topic s = [])) as [Ht|Ht].
  - rewrite Ht. cbn [truthy negb andb].
    destruct typed as [|c typed]; cbn [truthy].
    + rewrite (script_past _ _ _ _ _ Hs) by auto. by eapply display_skip.
    + by apply (script_generate _ _ _ _ Hs).
  - rewrite (proj2 (truthy_true (topic s))) by done. cbn [negb andb].
    rewrite (script_past _ _ _ _ _ Hs) by auto. by eapply display_skip.
Qed.

(** X25: the regenerate button runs its handler only while ideas are on
    the page; otherwise the run does nothing. *)
Theorem regenerate_button model typed (σ : session_state) s :
  snapshot σ = Some s →
  script model typed (Some RegenerateButton) σ
  = if truthy (ideas s)
    then on_regenerate model σ
    else ([], σ, Returned tt).
Proof.
  intros Hs. rewrite (script_past _ _ _ _ _ Hs) by auto.
  destruct (ideas s) as [|idea l] eqn:Hi; cbn [truthy].
  - by eapply display_empty.
  - apply (display_regenerate _ _ _ Hs). by rewrite Hi.
Qed.

(** X26: the like and the remove buttons of row [i] act on the idea at
    position [i] of the list, counted from 1, and a button of no row does
    nothing. *)
Theorem row_buttons model typed i (σ : session_state) s :
  snapshot σ = Some s →
  script model typed (Some (LikeButton i)) σ
  = match i, ideas s !! pred i with
    | S _, Some idea => on_like idea σ
    | _, _ => ([], σ, Returned tt)
    end
  ∧ script model typed (Some (RemoveButton i)) σ
    = match i, ideas s !! pred i with
      | S _, Some idea => on_remove idea σ
      | _, _ => ([], σ, Returned tt)
      end.
Proof.
  intros Hs. rewrite !(script_past _ _ _ _ _ Hs) by auto.
  destruct i as [|i]; cbn [pred].
  { split; [eapply display_like_miss|eapply display_remove_miss]; eauto. }
  destruct (ideas s !! i) as [idea|] eqn:Hidea.
  - split; [by eapply display_like|by eapply display_remove].
  - apply lookup_ge_None in Hidea.
    split; [eapply display_like_miss|eapply display_remove_miss];
      first [done|lia].
Qed.

(** X27: the remove button of the liked list runs its handler only while
    ideas are on the page and the idea is among those the liked set is
    iterated over; otherwise the run does nothing. *)
Theorem unlike_button model typed idea (σ : session_state) s :
  snapshot σ = Some s →
  script model typed (Some (RemoveLikedButton idea)) σ
  = if truthy (ideas s) && bool_decide (liked_ideas s ≠ ∅)
       && bool_decide (idea ∈ set_iter (liked_ideas s))
    then on_remove_liked idea σ
    else ([], σ, Returned tt).
Proof.
  intros Hs. rewrite (script_past _ _ _ _ _ Hs) by auto.
  destruct (ideas s) as [|x l] eqn:Hi; cbn [truthy andb].
  { eapply display_unlike_miss; eauto. }
  case_bool_decide as Hne; cbn [andb].
  2:{ eapply display_unlike_miss; [done|]. right. left.
      by destruct (decide (liked_ideas s = ∅)). }
  case_bool_decide as Hx.
  - apply (display_unlike _ _ _ _ Hs); [by rewrite Hi|done..].
  - eapply display_unlike_miss; eauto.
Qed.


End ScriptTheorems.

(** ** Instances *)

Section Instances.
#[local] Existing Instance ascii_runtime.

Example shown_snapshot :
  snapshot shown = Some shown_session ∧ session_ok shown_session.
Proof.
  split; [reflexivity|]. unfold session_ok. cbn.
  split; [lia|]. split; [by repeat constructor|]. split; [lia|].
  intros _. split; [done|lia].
Qed.

Lemma service_failure_reported_witness :
  blank (py "apps") = false
  ∧ generate_ideas (λ _, Failure (py "quota exceeded")) (py "apps") ∅ ∅ 1 ∅
    = ([Request (prompt (py "apps") ∅ ∅ 1);
        Error (py "⚠️ 아이디어 생성 중 오류가 발생했습니다: "
               ++ py "quota exceeded")],
       ∅, Returned []).
Proof.
  split; [reflexivity|].
  apply (service_failure_reported (λ _, Failure (py "quota exceeded")));
    reflexivity.
Defined.

Lemma one_request_per_call_witness :
  blank (py "apps") = false
  ∧ ∃ banners,
      effects_of (generate_ideas (λ _, Text (py "- a bullet")) (py "apps")
                    ∅ ∅ 1 ∅)
      = Request (prompt (py "apps") ∅ ∅ 1) :: banners
      ∧ ∀ p, Request p ∉ banners.
Proof.
  split; [reflexivity|].
  apply (one_request_per_call (λ _, Text (py "- a bullet"))). reflexivity.
Defined.

Lemma no_idea_iff_no_numbered_line_witness :
  blank (py "apps") = false
  ∧ (returned (generate_ideas (λ _, Text (py "- a bullet")) (py "apps")
                 ∅ ∅ 1 ∅) = []
     ↔ Forall (λ line, numbered (strip line) = false)
         (split nl (py "- a bullet"))).
Proof.
  split; [reflexivity|].
  apply (no_idea_iff_no_numbered_line (λ _, Text (py "- a bullet")));
    reflexivity.
Defined.

Lemma first_round_ignores_feedback_witness :
  (1 ≤ 1)%Z
  ∧ generate_ideas (λ _, Text example_response) (py "apps")
      {[py "Ship fast"]} ∅ 1 ∅
    = generate_ideas (λ _, Text example_response) (py "apps")
        ∅ {[py "Sell a gadget"]} 1 ∅.
Proof.
  split; [lia|]. apply first_round_ignores_feedback. lia.
Defined.

Lemma reset_keeps_other_keys_witness :
  ("topic_input" ∉ session_keys)
  ∧ store_of (reset_session_state (<["topic_input":=VStr (py "apps")]> shown))
      !! "topic_input"
    = <["topic_input":=VStr (py "apps")]> shown !! "topic_input".
Proof.
  assert ("topic_input" ∉ session_keys) as Hk.
  { unfold session_keys. rewrite !not_elem_of_cons.
    repeat split; [discriminate..|apply not_elem_of_nil]. }
  split; [exact Hk|].
  apply (reset_keeps_other_keys
           (<["topic_input":=VStr (py "apps")]> shown) "topic_input" Hk).
Defined.

Lemma like_twice_is_like_once_witness :
  snapshot shown = Some shown_session
  ∧ store_of (on_like (py "Ship fast")
                (store_of (on_like (py "Ship fast") shown)))
    = store_of (on_like (py "Ship fast") shown).
Proof.
  split; [reflexivity|].
  apply (like_twice_is_like_once (py "Ship fast") shown shown_session).
  reflexivity.
Defined.

Lemma like_then_unlike_restores_witness :
  snapshot shown = Some shown_session
  ∧ (py "Ship fast" ∉ liked_ideas shown_session)
  ∧ store_of (on_remove_liked (py "Ship fast")
                (store_of (on_like (py "Ship fast") shown)))
    = shown.
Proof.
  split; [reflexivity|]. split; [apply not_elem_of_empty|].
  apply (like_then_unlike_restores (py "Ship fast") shown shown_session);
    [reflexivity|apply not_elem_of_empty].
Defined.

Lemma like_and_remove_commute_witness :
  snapshot shown = Some shown_session
  ∧ store_of (on_remove (py "Ship fast")
                (store_of (on_like (py "Sell a gadget") shown)))
    = store_of (on_like (py "Sell a gadget")
                  (store_of (on_remove (py "Ship fast") shown))).
Proof.
  split; [reflexivity|].
  apply (like_and_remove_commute (py "Sell a gadget") (py "Ship fast")
           shown shown_session).
  reflexivity.
Defined.

Lemma unlike_missing_raises_witness :
  snapshot shown = Some shown_session
  ∧ (py "Ship fast" ∉ liked_ideas shown_session)
  ∧ ∃ e, on_remove_liked (py "Ship fast") shown = ([], shown, Raised e).
Proof.
  split; [reflexivity|]. split; [apply not_elem_of_empty|].
  apply (unlike_missing_raises (py "Ship fast") shown shown_session);
    [reflexivity|apply not_elem_of_empty].
Defined.

Lemma script_keeps_session_ok_witness :
  snapshot shown = Some shown_session ∧ session_ok shown_session
  ∧ ∃ s', snapshot (store_of (script (λ _, Text (py "1. Ship sooner")) []
                                (Some RegenerateButton) shown)) = Some s'
          ∧ session_ok s'.
Proof.
  destruct shown_snapshot as [Hs Hok]. split; [exact Hs|]. split; [exact Hok|].
  exact (script_keeps_session_ok (λ _, Text (py "1. Ship sooner")) []
           (Some RegenerateButton) shown shown_session Hs Hok).
Defined.

Lemma script_never_raises_witness :
  snapshot shown = Some shown_session ∧ sound_iteration
  ∧ outcome_of (script (λ _, Failure (py "quota exceeded")) []
                  (Some (RemoveLikedButton (py "Ship fast"))) shown)
    ≠ Raised (py "Ship fast").
Proof.
  assert (sound_iteration) as Hsound.
  { intros X x. apply elem_of_elements. }
  split; [reflexivity|]. split; [exact Hsound|].
  apply (script_never_raises _ _ _ shown shown_session); [reflexivity|exact Hsound].
Defined.

Lemma round_never_decreases_witness :
  snapshot shown = Some shown_session
  ∧ Some (LikeButton 1) ≠ Some ResetButton
  ∧ ∃ s', snapshot (store_of (script (λ _, Text example_response) []
                                (Some (LikeButton 1)) shown)) = Some s'
          ∧ (current_round shown_session ≤ current_round s'
             ≤ current_round shown_session + 1)%Z.
Proof.
  split; [reflexivity|]. split; [discriminate|].
  apply (round_never_decreases _ _ _ shown shown_session);
    [reflexivity|discriminate].
Defined.

Lemma removed_ideas_stay_witness :
  snapshot shown = Some shown_session
  ∧ Some (RemoveButton 2) ≠ Some ResetButton
  ∧ ∃ s', snapshot (store_of (script (λ _, Text example_response) []
                                (Some (RemoveButton 2)) shown)) = Some s'
          ∧ removed_ideas shown_session ⊆ removed_ideas s'.
Proof.
  split; [reflexivity|]. split; [discriminate|].
  apply (removed_ideas_stay _ _ _ shown shown_session);
    [reflexivity|discriminate].
Defined.

Lemma topic_stays_witness :
  snapshot shown = Some shown_session
  ∧ Some GenerateButton ≠ Some ResetButton
  ∧ topic shown_session ≠ []
  ∧ ∃ s', snapshot (store_of (script (λ _, Text example_response)
                                (py "other") (Some GenerateButton) shown))
          = Some s'
          ∧ topic s' = topic shown_session.
Proof.
  split; [reflexivity|]. split; [discriminate|]. split; [discriminate|].
  apply (topic_stays _ _ _ shown shown_session);
    [reflexivity|discriminate|discriminate].
Defined.

Lemma other_buttons_are_silent_witness :
  snapshot shown = Some shown_session
  ∧ Some (LikeButton 3) ≠ Some GenerateButton
  ∧ Some (LikeButton 3) ≠ Some RegenerateButton
  ∧ effects_of (script (λ _, Text example_response) []
                  (Some (LikeButton 3)) shown) = [].
Proof.
  split; [reflexivity|]. split; [discriminate|]. split; [discriminate|].
  apply (other_buttons_are_silent _ _ _ shown shown_session);
    [reflexivity|discriminate|discriminate].
Defined.

Lemma render_changes_nothing_witness :
  snapshot shown = Some shown_session
  ∧ script (λ _, Text example_response) (py "typed") None shown
    = ([], shown, Returned tt).
Proof.
  split; [reflexivity|].
  apply (render_changes_nothing _ _ shown shown_session). reflexivity.
Defined.

Lemma generate_button_witness :
  snapshot fresh = Some default_session
  ∧ script (λ _, Text example_response) (py "apps") (Some GenerateButton)
      fresh
    = on_generate (λ _, Text example_response) (py "apps") fresh.
Proof.
  split; [reflexivity|].
  apply (generate_button _ (py "apps") fresh default_session). reflexivity.
Defined.

Lemma regenerate_button_witness :
  snapshot shown = Some shown_session
  ∧ script (λ _, Text example_response) [] (Some RegenerateButton) shown
    = on_regenerate (λ _, Text example_response) shown.
Proof.
  split; [reflexivity|].
  apply (regenerate_button _ [] shown shown_session). reflexivity.
Defined.

Lemma row_buttons_witness :
  snapshot shown = Some shown_session
  ∧ script (λ _, Text example_response) [] (Some (LikeButton 2)) shown
    = on_like (py "Sell a gadget") shown
  ∧ script (λ _, Text example_response) [] (Some (RemoveButton 2)) shown
    = on_remove (py "Sell a gadget") shown.
Proof.
  split; [reflexivity|].
  apply (row_buttons (λ _, Text example_response) [] 2 shown shown_session).
  reflexivity.
Defined.

Lemma unlike_button_witness :
  snapshot liked_shown = Some liked_session
  ∧ script (λ _, Text example_response) []
      (Some (RemoveLikedButton (py "Ship fast"))) liked_shown
    = on_remove_liked (py "Ship fast") liked_shown
  ∧ snapshot (store_of (script (λ _, Text example_response) []
                          (Some (RemoveLikedButton (py "Ship fast")))
                          liked_shown))
    = Some shown_session
  ∧ script (λ _, Text example_response) []
      (Some (RemoveLikedButton (py "Sell a gadget"))) liked_shown
    = ([], liked_shown, Returned tt).
Proof.
  split; [reflexivity|].
  pose proof (unlike_button (λ _, Text example_response) []
                (py "Ship fast") liked_shown liked_session eq_refl) as Hrun.
  split; [exact Hrun|]. split; [rewrite Hrun; reflexivity|].
  exact (unlike_button (λ _, Text example_response) []
           (py "Sell a gadget") liked_shown liked_session eq_refl).
Defined.


End Instances.
